(** * Weibo crawler: card parser and paginated fetch loop

    A shallow embedding of [WeiboSpider] (src/crawler.py): [parse_mblog],
    [parse_weibo] and [get_weibo_data], together with the fragment of
    Python's dynamic semantics these three methods rely on (dictionary
    lookup with defaults, truthiness, [==], [in], [str], exceptions).

    Modelling conventions.
    - A decoded JSON document is a [json] value.  Numbers are Python
      integers; JSON numbers with a fraction or an exponent (Python
      floats) are outside the model.
    - A Python [str] is the byte string of its UTF-8 encoding; substring
      search and the replacement of a one-byte character commute with
      that encoding.
    - A dictionary is the list of its items; lookup takes the first item
      with the key.  The keys of a decoded document are distinct, which no
      definition or proof below relies on.
    - Raising is explicit: a computation of type [py A] either returns a
      value or raises one of the exceptions of [exn], all of which derive
      from [Exception].
    - Console output ([print]) and [time.sleep] have no effect on the
      results and are left out. *)

From Stdlib Require Import ZArith List String Ascii Bool Lia DecimalString.
Import ListNotations.

Set Warnings "-register-all".

Local Open Scope string_scope.
Local Open Scope Z_scope.

(** ** JSON values *)

Inductive json : Type :=
| JNull
| JBool (b : bool)
| JInt (n : Z)
| JStr (s : string)
| JArr (items : list json)
| JObj (fields : list (string * json)).

Fixpoint assoc {A : Type} (k : string) (d : list (string * A)) : option A :=
  match d with
  | [] => None
  | (k', v) :: d' => if String.eqb k k' then Some v else assoc k d'
  end.

Definition is_nil {A : Type} (l : list A) : bool :=
  match l with [] => true | _ :: _ => false end.

(** ** Exceptions *)

Inductive exn : Type :=
| AttributeError
| TypeError
| KeyError
| RequestException
| JSONDecodeError.

Inductive py (A : Type) : Type :=
| Return (a : A)
| Raise (e : exn).

Arguments Return {A} a.
Arguments Raise {A} e.

Definition bind {A B : Type} (m : py A) (k : A -> py B) : py B :=
  match m with
  | Return a => k a
  | Raise e => Raise e
  end.

Notation "x <- m ;; k" := (bind m (fun x => k))
  (at level 61, m at next level, right associativity).

(** [try: body / except Exception: handler]. *)
Definition try_except {A : Type} (body : py A) (handler : exn -> py A) : py A :=
  match body with
  | Return a => Return a
  | Raise e => handler e
  end.

(** ** Python primitives on JSON values *)

(** [a == b].  [bool] is a subclass of [int], so [True == 1]. *)
Fixpoint py_eq (a b : json) {struct a} : bool :=
  match a, b with
  | JNull, JNull => true
  | JBool x, JBool y => Bool.eqb x y
  | JBool x, JInt n => Z.b2z x =? n
  | JInt n, JBool y => n =? Z.b2z y
  | JInt n, JInt m => n =? m
  | JStr s, JStr t => String.eqb s t
  | JArr l, JArr m =>
      (fix eq_items (l m : list json) {struct l} : bool :=
         match l, m with
         | [], [] => true
         | x :: l', y :: m' => py_eq x y && eq_items l' m'
         | _, _ => false
         end) l m
  | JObj d, JObj e =>
      (List.length d =? List.length e)%nat &&
      (fix eq_fields (d : list (string * json)) {struct d} : bool :=
         match d with
         | [] => true
         | (k, v) :: d' =>
             match assoc k e with
             | Some w => py_eq v w
             | None => false
             end && eq_fields d'
         end) d
  | _, _ => false
  end.

(** [bool(v)], the test performed by [if v:]. *)
Definition py_truthy (v : json) : bool :=
  match v with
  | JNull => false
  | JBool b => b
  | JInt n => negb (n =? 0)
  | JStr s => negb (String.eqb s "")
  | JArr l => negb (is_nil l)
  | JObj d => negb (is_nil d)
  end.

(** [o.get(k, default)]: only dictionaries have the method. *)
Definition py_get (o : json) (k : string) (default : json) : py json :=
  match o with
  | JObj d => Return (match assoc k d with Some v => v | None => default end)
  | _ => Raise AttributeError
  end.

(** [o[k]] for a string key [k]. *)
Definition py_getitem (o : json) (k : string) : py json :=
  match o with
  | JObj d => match assoc k d with Some v => Return v | None => Raise KeyError end
  | _ => Raise TypeError
  end.

(** [needle in hay] on strings. *)
Fixpoint str_contains (needle hay : string) : bool :=
  String.prefix needle hay ||
  match hay with
  | EmptyString => false
  | String _ hay' => str_contains needle hay'
  end.

(** [s in c] for a string [s]: substring of a string, element of a list,
    key of a dictionary; [None], booleans and integers are not
    containers. *)
Definition py_in (s : string) (c : json) : py bool :=
  match c with
  | JStr h => Return (str_contains s h)
  | JArr l => Return (existsb (fun x => py_eq x (JStr s)) l)
  | JObj d => Return (match assoc s d with Some _ => true | None => false end)
  | _ => Raise TypeError
  end.

(** The elements a [for] loop over [c] visits.  A string gives one item
    per byte where Python gives one per character; the loops of the
    crawler call [.get] on each item and so fail on the first item of a
    string either way. *)
Definition py_iter (c : json) : py (list json) :=
  match c with
  | JArr l => Return l
  | JStr s => Return (map (fun ch => JStr (String ch EmptyString)) (list_ascii_of_string s))
  | JObj d => Return (map (fun kv => JStr (fst kv)) d)
  | _ => Raise TypeError
  end.

(** [len(c)], in bytes for a string; the crawler only prints it. *)
Definition py_len (c : json) : py Z :=
  match c with
  | JArr l => Return (Z.of_nat (List.length l))
  | JStr s => Return (Z.of_nat (String.length s))
  | JObj d => Return (Z.of_nat (List.length d))
  | _ => Raise TypeError
  end.

Definition newline : ascii := "010"%char.

(** [s.replace(old, new)] for one-character [old] and [new]. *)
Fixpoint str_replace (old new : ascii) (s : string) : string :=
  match s with
  | EmptyString => EmptyString
  | String c s' => String (if Ascii.eqb c old then new else c) (str_replace old new s')
  end.

(** [v.replace('\n', ' ')]: only strings have the method. *)
Definition py_replace_newline (v : json) : py string :=
  match v with
  | JStr s => Return (str_replace newline " "%char s)
  | _ => Raise AttributeError
  end.

(** The relative-time markers of line 108: "minutes ago" and "hours ago". *)
Definition minutes_ago : string := "分钟前".
Definition hours_ago : string := "小时前".

(** ** Post records *)

Module Post.
Record t : Type := mk {
  id : string;
  bid : json;
  created_at : string;
  text : string;
  is_retweet : Z;
  reposts_count : json;
  comments_count : json;
  attitudes_count : json;
  user_name : json;
  user_followers : json;
  source : json
}.
End Post.

(** The library functions the crawler calls and this development does not
    define. *)
Class Library : Type := {
  (** Python's [repr], which [str] applies to lists and dictionaries. *)
  py_repr : json -> string;
  (** [pd.to_datetime(x).strftime('%Y-%m-%d %H:%M:%S')], as a string;
      [None] when either call raises. *)
  to_datetime : json -> option string;
  (** [urllib.parse.quote]. *)
  quote : string -> string
}.

Section Parser.

Context {lib : Library}.

(** [str(v)], also the conversion of an f-string field. *)
Definition py_str (v : json) : string :=
  match v with
  | JStr s => s
  | JNull => "None"
  | JBool true => "True"
  | JBool false => "False"
  | JInt n => NilZero.string_of_int (Z.to_int n)
  | _ => py_repr v
  end.

(** Lines 106-113.  [now] is [datetime.now().strftime(...)] at the time
    of the call. *)
Definition normalize_created_at (now : string) (raw : json) : string :=
  match (m <- py_in minutes_ago raw ;;
         if m then Return true else py_in hours_ago raw) with
  | Return true => now
  | Return false =>
      match to_datetime raw with
      | Some t => t
      | None => py_str raw
      end
  | Raise _ => py_str raw
  end.

(** Lines 93-103: the text and the repost flag. *)
Definition mblog_text (mblog : json) : py (json * bool) :=
  text <- py_get mblog "text" (JStr "") ;;
  has <- py_in "retweeted_status" mblog ;;
  if has then
    retweet_status <- py_getitem mblog "retweeted_status" ;;
    retweet_text <- py_get retweet_status "text" (JStr "") ;;
    Return (JStr (py_str text ++ " // " ++ py_str retweet_text), true)
  else Return (text, false).

(** The [try] block of [parse_mblog], lines 92-127. *)
Definition parse_mblog_body (now : string) (mblog : json) : py Post.t :=
  ti <- mblog_text mblog ;;
  raw_created <- py_get mblog "created_at" (JStr "") ;;
  let created_at := normalize_created_at now raw_created in
  id <- py_get mblog "id" (JStr "") ;;
  bid <- py_get mblog "bid" (JStr "") ;;
  text <- py_replace_newline (fst ti) ;;
  reposts_count <- py_get mblog "reposts_count" (JInt 0) ;;
  comments_count <- py_get mblog "comments_count" (JInt 0) ;;
  attitudes_count <- py_get mblog "attitudes_count" (JInt 0) ;;
  user <- py_get mblog "user" (JObj []) ;;
  user_name <- py_get user "screen_name" (JStr "") ;;
  user' <- py_get mblog "user" (JObj []) ;;
  user_followers <- py_get user' "followers_count" (JInt 0) ;;
  source <- py_get mblog "source" (JStr "") ;;
  Return (Post.mk (py_str id) bid created_at text
                  (if snd ti then 1 else 0)
                  reposts_count comments_count attitudes_count
                  user_name user_followers source).

Definition parse_mblog (now : string) (mblog : json) : py (option Post.t) :=
  try_except (r <- parse_mblog_body now mblog ;; Return (Some r))
             (fun _ => Return None).

(** The loop of lines 53-57; running off the end of the list reaches
    [return None] on line 63. *)
Fixpoint scan_card_group (now : string) (items : list json) : py (option Post.t) :=
  match items with
  | [] => Return None
  | item :: rest =>
      ty <- py_get item "card_type" JNull ;;
      if py_eq ty (JInt 9) then
        mblog <- py_get item "mblog" (JObj []) ;;
        if py_truthy mblog then parse_mblog now mblog
        else scan_card_group now rest
      else scan_card_group now rest
  end.

(** The [try] block of [parse_weibo], lines 50-63. *)
Definition parse_weibo_body (now : string) (card : json) : py (option Post.t) :=
  ty <- py_get card "card_type" JNull ;;
  if py_eq ty (JInt 11) then
    card_group <- py_get card "card_group" (JArr []) ;;
    items <- py_iter card_group ;;
    scan_card_group now items
  else
    ty' <- py_get card "card_type" JNull ;;
    if py_eq ty' (JInt 9) then
      mblog <- py_get card "mblog" (JObj []) ;;
      if py_truthy mblog then parse_mblog now mblog
      else Return None
    else Return None.

Definition parse_weibo (now : string) (card : json) : py (option Post.t) :=
  try_except (parse_weibo_body now card) (fun _ => Return None).

End Parser.

(** ** The fetch loop *)

(** What one page request produces: [requests.get] raises, or
    [response.json()] raises, or the body decodes to [json_data]. *)
Inductive response : Type :=
| Failed
| Undecodable
| Body (json_data : json).

(** The variables of [get_weibo_data] that live across iterations, and the
    page numbers requested so far (the observable effect of
    [requests.get]). *)
Record state : Type := mkState {
  all_data : list Post.t;
  consecutive_empty : Z;
  requested : list Z
}.

Inductive flow : Type :=
| Next
| Break.

(** [range(lo, hi)]. *)
Definition py_range (lo hi : Z) : list Z :=
  map (fun i => lo + Z.of_nat i) (seq 0 (Z.to_nat (hi - lo))).

(** Line 179: [any(post['bid'] == weibo_data['bid'] for post in all_data)]. *)
Definition seen (all_data : list Post.t) (weibo_data : Post.t) : bool :=
  existsb (fun post => py_eq (Post.bid post) (Post.bid weibo_data)) all_data.

(** Line 170: [[card.get('card_type') for card in cards]]. *)
Fixpoint card_types (cards : list json) : py (list json) :=
  match cards with
  | [] => Return []
  | card :: rest =>
      ty <- py_get card "card_type" JNull ;;
      tys <- card_types rest ;;
      Return (ty :: tys)
  end.

(** The world one run of the crawler sees. *)
Class World : Type := {
  (** The search endpoint: the response to the request for page [page]
      of container [containerid]. *)
  http : string -> Z -> response;
  (** The wall clock, formatted, when card number [i] of page [page] is
      parsed. *)
  clock : Z -> nat -> string
}.

Section Crawler.

Context {lib : Library} {world : World}.

(** Lines 163-164. *)
Definition fetch_page (containerid : string) (page : Z) : py json :=
  match http containerid page with
  | Failed => Raise RequestException
  | Undecodable => Raise JSONDecodeError
  | Body json_data => Return json_data
  end.

(** Lines 163-171: the request and the inspection of the body, up to
    the card loop.  [None] is the [else] branch of line 197. *)
Definition page_cards (containerid : string) (page : Z) : py (option (list json)) :=
  json_data <- fetch_page containerid page ;;
  ok <- py_get json_data "ok" JNull ;;
  has_data <- (if py_eq ok (JInt 1) then py_in "data" json_data else Return false) ;;
  if has_data then
    data <- py_getitem json_data "data" ;;
    cards <- py_get data "cards" (JArr []) ;;
    _ <- py_len cards ;;
    items <- py_iter cards ;;
    _ <- card_types items ;;
    Return (Some items)
  else Return None.

(** Lines 173-184.  [all_data] is a list mutated in place: the first
    component is its contents when the loop ends, normally or not. *)
Fixpoint process_cards (page : Z) (i : nat) (cards : list json)
         (all_data : list Post.t) (new_posts : Z) : list Post.t * py Z :=
  match cards with
  | [] => (all_data, Return new_posts)
  | card :: rest =>
      match (_ <- py_get card "card_type" JNull ;;
             parse_weibo (clock page i) card) with
      | Raise e => (all_data, Raise e)
      | Return None => process_cards page (S i) rest all_data new_posts
      | Return (Some weibo_data) =>
          if seen all_data weibo_data
          then process_cards page (S i) rest all_data new_posts
          else process_cards page (S i) rest (all_data ++ [weibo_data])%list (new_posts + 1)
      end
  end.

(** Lines 156-199, the [try] block of one iteration. *)
Definition try_page (containerid : string) (page : Z) (s : state) : state * py flow :=
  let req := (requested s ++ [page])%list in
  match page_cards containerid page with
  | Raise e => (mkState (all_data s) (consecutive_empty s) req, Raise e)
  | Return None => (mkState (all_data s) (consecutive_empty s) req, Return Break)
  | Return (Some cards) =>
      match process_cards page 0 cards (all_data s) 0 with
      | (all_data', Raise e) => (mkState all_data' (consecutive_empty s) req, Raise e)
      | (all_data', Return new_posts) =>
          if new_posts =? 0 then
            let consecutive_empty' := consecutive_empty s + 1 in
            (mkState all_data' consecutive_empty' req,
             Return (if 3 <=? consecutive_empty' then Break else Next))
          else (mkState all_data' 0 req, Return Next)
      end
  end.

(** One iteration: lines 155-203, with [except Exception: continue]. *)
Definition loop_body (containerid : string) (page : Z) (s : state) : py (state * flow) :=
  let (s', r) := try_page containerid page s in
  try_except (f <- r ;; Return (s', f)) (fun _ => Return (s', Next)).

(** Lines 154-203. *)
Fixpoint run_pages (containerid : string) (pages : list Z) (s : state) : py state :=
  match pages with
  | [] => Return s
  | page :: rest =>
      sf <- loop_body containerid page s ;;
      match snd sf with
      | Break => Return (fst sf)
      | Next => run_pages containerid rest (fst sf)
      end
  end.

Definition containerid_of (keyword : string) : string :=
  "100103type=1&q=" ++ quote keyword.

Definition initial : state := mkState [] 0 [].

(** The run of the loop for [keyword] and [page_num]. *)
Definition crawl (keyword : string) (page_num : Z) : py state :=
  run_pages (containerid_of keyword) (py_range 1 (page_num + 1)) initial.

(** Lines 146-205; the rows of the returned data frame. *)
Definition get_weibo_data (keyword : string) (page_num : Z) : py (list Post.t) :=
  s <- crawl keyword page_num ;;
  Return (all_data s).

End Crawler.

(** ** Vocabulary of the properties *)

(** [d.get(k, default)] on the items of a dictionary. *)
Definition lookup (d : list (string * json)) (k : string) (default : json) : json :=
  match assoc k d with Some v => v | None => default end.

(** The post body a direct card carries: [card] is a dictionary whose
    [card_type] equals 9 and whose [mblog] is non-empty. *)
Definition direct_mblog (card : json) : option json :=
  match card with
  | JObj d =>
      let mblog := lookup d "mblog" (JObj []) in
      if py_eq (lookup d "card_type" JNull) (JInt 9) && py_truthy mblog
      then Some mblog else None
  | _ => None
  end.

Definition is_dict (v : json) : bool :=
  match v with JObj _ => true | _ => false end.

(** A sub-card the scan of a composite card passes over. *)
Definition passed_over (item : json) : Prop :=
  is_dict item = true /\ direct_mblog item = None.

(** Two dictionaries that differ at most at key [k0]. *)
Definition agree_except (k0 : string) (d d' : list (string * json)) : Prop :=
  forall k, k <> k0 -> assoc k d = assoc k d'.

(** A value that is no list and no dictionary. *)
Definition is_scalar (v : json) : bool :=
  match v with JArr _ | JObj _ => false | _ => true end.

Definition nonneg_int (v : json) : Prop :=
  exists n, v = JInt n /\ 0 <= n.

Section Vocabulary.

Context {lib : Library}.

(** The record [parse_mblog] builds from the items [d] of an mblog, given
    the text and repost flag [ti], the text after line 119 and the items
    of the user. *)
Definition record_of (now : string) (d : list (string * json)) (ti : json * bool)
           (text : string) (user : list (string * json)) : Post.t :=
  Post.mk (py_str (lookup d "id" (JStr "")))
          (lookup d "bid" (JStr ""))
          (normalize_created_at now (lookup d "created_at" (JStr "")))
          text
          (if snd ti then 1 else 0)
          (lookup d "reposts_count" (JInt 0))
          (lookup d "comments_count" (JInt 0))
          (lookup d "attitudes_count" (JInt 0))
          (lookup user "screen_name" (JStr ""))
          (lookup user "followers_count" (JInt 0))
          (lookup d "source" (JStr "")).

(** The accumulator after the records of [stream] have been offered to
    it in order, each inserted only if no record already there has its
    bid. *)
Fixpoint keep_first (acc stream : list Post.t) : list Post.t :=
  match stream with
  | [] => acc
  | w :: rest => keep_first (if seen acc w then acc else (acc ++ [w])%list) rest
  end.

(** No record has the bid of a record before it. *)
Definition distinct_bids (rows : list Post.t) : Prop :=
  ForallOrdPairs (fun p q => py_eq (Post.bid p) (Post.bid q) = false) rows.

Inductive subseq {A : Type} : list A -> list A -> Prop :=
| subseq_nil : subseq [] []
| subseq_skip x l m : subseq l m -> subseq l (x :: m)
| subseq_take x l m : subseq l m -> subseq (x :: l) (x :: m).

(** The top level of a body the provider marks as failed: ok is not 1, or
    there is no data. *)
Definition not_ok (d : list (string * json)) : Prop :=
  py_eq (lookup d "ok" JNull) (JInt 1) = false \/ assoc "data" d = None.

Context {world : World}.

(** The records the card parser produces for [cards], the first of which
    is card number [i] of page [page]. *)
Fixpoint parsed_cards (page : Z) (i : nat) (cards : list json) : list Post.t :=
  match cards with
  | [] => []
  | card :: rest =>
      match parse_weibo (clock page i) card with
      | Return (Some w) => w :: parsed_cards page (S i) rest
      | _ => parsed_cards page (S i) rest
      end
  end.

(** The records parsed on page [page]; none when the page gives no card
    sequence. *)
Definition parsed_page (containerid : string) (page : Z) : list Post.t :=
  match page_cards containerid page with
  | Return (Some cards) => parsed_cards page 0 cards
  | _ => []
  end.

(** Every record parsed from [cards] has the bid of a record of
    [all_data]. *)
Definition reproduces_seen (page : Z) (cards : list json) (all_data : list Post.t) : Prop :=
  Forall (fun w => seen all_data w = true) (parsed_cards page 0 cards).

End Vocabulary.

(** ** Sample inputs *)

Module Sample.

(** A library whose timestamp parser accepts one absolute timestamp
    only. *)
Definition lib : Library := {|
  py_repr := fun _ => "<repr>";
  to_datetime := fun v =>
    match v with
    | JStr s => if String.eqb s "2023-01-01 10:00:00" then Some s else None
    | _ => None
    end;
  quote := fun keyword => keyword
|}.

Definition now : string := "2024-05-06 07:08:09".

Definition two_lines : string := String "A" (String newline "B").

Definition repost_AB : json :=
  JObj [("text", JStr "A"); ("retweeted_status", JObj [("text", JStr "B")])].

Definition repost_two_lines : json :=
  JObj [("text", JStr two_lines); ("retweeted_status", JObj [("text", JStr "C")])].

Definition mblog_of (bid : string) : json := JObj [("bid", JStr bid)].

Definition direct (mblog : json) : json :=
  JObj [("card_type", JInt 9); ("mblog", mblog)].

Definition composite_items (group : list json) : list (string * json) :=
  [("card_type", JInt 11); ("card_group", JArr group)].

Definition composite (group : list json) : json := JObj (composite_items group).

Definition banner : json := JObj [("card_type", JInt 4)].

Definition page_of (cards : list json) : response :=
  Body (JObj [("ok", JInt 1); ("data", JObj [("cards", JArr cards)])]).

(** The record of [mblog_of bid]. *)
Definition post (bid : string) : Post.t :=
  Post.mk "" (JStr bid) "" "" 0 (JInt 0) (JInt 0) (JInt 0) (JStr "") (JInt 0) (JStr "").

Definition mblog_hot : json :=
  JObj [("bid", JStr "h"); ("reposts_count", JStr "100万+"); ("comments_count", JInt (-1))].

Definition items_at (created_at : string) : list (string * json) :=
  [("bid", JStr "t"); ("created_at", JStr created_at)].

Definition mblog_at (created_at : string) : json := JObj (items_at created_at).

(** The record of [mblog_at], with the created_at it ends up with. *)
Definition post_at (created_at : string) : Post.t :=
  Post.mk "" (JStr "t") created_at "" 0 (JInt 0) (JInt 0) (JInt 0) (JStr "") (JInt 0) (JStr "").

Definition fresh : response := page_of [direct (mblog_of "a"); banner; direct (mblog_of "b")].

Definition stale : response :=
  page_of [direct (mblog_of "b"); composite [banner; direct (mblog_of "a")]].

(** One page of new posts, then pages that repeat them, then new posts
    again from page 5 on. *)
Definition world : World := {|
  http := fun _ page =>
    match page with
    | 1 => fresh
    | 2 | 3 | 4 => stale
    | _ => page_of [direct (mblog_of "z")]
    end;
  clock := fun _ _ => now
|}.

(** The provider rejects page 2. *)
Definition world_rejecting : World := {|
  http := fun _ page =>
    match page with
    | 1 => fresh
    | 2 => Body (JObj [("ok", JInt 0); ("msg", JStr "busy")])
    | _ => page_of [direct (mblog_of "z")]
    end;
  clock := fun _ _ => now
|}.

(** Every request fails. *)
Definition world_down : World := {|
  http := fun _ _ => Failed;
  clock := fun _ _ => now
|}.

End Sample.

From Stdlib Require Import Permutation Sorted.

(** ** Further vocabulary *)

Definition is_str (v : json) : bool :=
  match v with JStr _ => true | _ => false end.

(** The mblogs [parse_mblog] turns into a record: dictionaries whose user,
    when there is one, is a dictionary, and whose retweeted_status is a
    dictionary or, when there is none, whose text is a string. *)
Definition mblog_accepted (mblog : json) : bool :=
  match mblog with
  | JObj d =>
      match assoc "retweeted_status" d with
      | Some retweet_status => is_dict retweet_status
      | None => is_str (lookup d "text" (JStr ""))
      end && is_dict (lookup d "user" (JObj []))
  | _ => false
  end.

(** [r] with another created_at. *)
Definition with_created_at (created_at : string) (r : Post.t) : Post.t :=
  Post.mk (Post.id r) (Post.bid r) created_at (Post.text r) (Post.is_retweet r)
          (Post.reposts_count r) (Post.comments_count r) (Post.attitudes_count r)
          (Post.user_name r) (Post.user_followers r) (Post.source r).

(** Two results of the card parser that differ at most in the created_at of
    the record. *)
Definition same_but_created_at (a b : py (option Post.t)) : Prop :=
  match a, b with
  | Return (Some r), Return (Some r') => r' = with_created_at (Post.created_at r') r
  | Return None, Return None => True
  | _, _ => False
  end.

(** [l] is an initial segment of [m]. *)
Definition initial_segment {A : Type} (l m : list A) : Prop :=
  exists rest, m = (l ++ rest)%list.

(** ** The analyzer

    [WeiboAnalyzer] (src/WeiboAnalyzer.py): [load_stopwords], [clean_text],
    [get_topic_keywords], [analyze_topics] and [extract_keywords].  The
    column [df['text']] is the list of the strings [str] gives for its
    cells, which is all [clean_text] looks at.  A [dict] or [Counter] with
    string keys is the list of its items in insertion order.  The
    influence score of [__init__] and [get_influential_posts] is
    floating-point arithmetic and the charts are calls of pyecharts; they
    are left out. *)

(** The library functions the analyzer calls. *)
Class TextLibrary : Type := {
  (** [re.sub(pattern, '', text)]. *)
  re_sub_empty : string -> string -> string;
  (** [text.strip()]. *)
  py_strip : string -> string;
  (** [list(jieba.cut(text))]. *)
  jieba_cut : string -> list string;
  (** [[line for line in open(path, 'r', encoding='utf-8')]]; [None] when
      opening or reading the file raises. *)
  read_lines : string -> option (list string)
}.

(** [len(s)]: the number of characters, that is of the bytes of the UTF-8
    encoding that are no continuation bytes. *)
Definition is_continuation (c : ascii) : bool :=
  (128 <=? nat_of_ascii c)%nat && (nat_of_ascii c <? 192)%nat.

Fixpoint char_count (s : string) : nat :=
  match s with
  | EmptyString => 0
  | String c s' => if is_continuation c then char_count s' else S (char_count s')
  end.

(** [w in words] for a set or list of strings. *)
Definition str_mem (w : string) (words : list string) : bool :=
  existsb (String.eqb w) words.

(** [counts[key] = counts.get(key, 0) + 1]. *)
Fixpoint dict_incr (key : string) (counts : list (string * Z)) : list (string * Z) :=
  match counts with
  | [] => [(key, 1)]
  | (k, c) :: rest =>
      if String.eqb k key then (k, c + 1) :: rest else (k, c) :: dict_incr key rest
  end.

(** [Counter(words)]. *)
Definition Counter (words : list string) : list (string * Z) :=
  fold_left (fun counts w => dict_incr w counts) words [].

(** [sorted(items, key=itemgetter(1), reverse=True)]: by decreasing count,
    items of equal count in their original order. *)
Fixpoint insert_desc (x : string * Z) (sorted : list (string * Z)) : list (string * Z) :=
  match sorted with
  | [] => [x]
  | y :: rest => if snd x <? snd y then y :: insert_desc x rest else x :: y :: rest
  end.

Definition sorted_desc (items : list (string * Z)) : list (string * Z) :=
  fold_right insert_desc [] items.

(** [counts.most_common(n)] for an integer [n]: [heapq.nlargest] with the
    count as key, which is the first [n] items of [sorted_desc] and no
    item for [n <= 0]. *)
Definition most_common (n : Z) (counts : list (string * Z)) : list (string * Z) :=
  firstn (Z.to_nat n) (sorted_desc counts).

(** Lines 90-91. *)
Definition extra_stops : list string :=
  ["小谢"; "家暴"; "微博"; "转发"; "评论"; "link"; "http"; "https";
   "转发微博"; "视频"; "链接"; "网页"; "图片"; "全文"].

(** Lines 125-140, in the order of the dictionary. *)
Definition get_topic_keywords : list (string * list string) :=
  [("判决相关", ["判决"; "判刑"; "量刑"; "死刑"; "一审"; "法院"; "庭审"; "刑事";
                 "起诉"; "11年"; "被告人"; "被告"; "审判"; "宣判"; "无期徒刑"]);
   ("暴力情况", ["家暴"; "暴力"; "殴打"; "伤害"; "打人"; "踢"; "伤势"; "粪袋";
                 "住院"; "伤"; "16次"; "打骂"; "伤痕"; "报警"; "施暴"]);
   ("社会讨论", ["关注"; "热议"; "舆论"; "网友"; "声援"; "支持"; "谴责"; "热搜";
                 "讨论"; "发声"; "话题"; "新闻"; "报道"; "焦点"]);
   ("法律程序", ["立案"; "取证"; "证据"; "处理"; "执法"; "公安"; "警察"; "报案";
                 "起诉"; "辩护"; "审理"; "鉴定"; "强制措施"]);
   ("受害者声音", ["受害者"; "小谢"; "发声"; "控诉"; "哭诉"; "诉求"; "无助";
                   "逃离"; "报警"; "求救"; "遭遇"; "经历"])].

Definition other_topic : string := "其他讨论".

Section Analyzer.

Context {text_lib : TextLibrary}.

(** Lines 87-97. *)
Definition load_stopwords (stopwords_path : string) : list string :=
  match read_lines stopwords_path with
  | Some lines => (map py_strip lines ++ extra_stops)%list
  | None => []
  end.

(** Lines 110-115, for the string [text] of the cell. *)
Definition clean_text (text : string) : string :=
  let text := re_sub_empty "<[^>]+>" text in
  let text :=
    re_sub_empty
      "http[s]?://(?:[a-zA-Z]|[0-9]|[$-_@.&+]|[!*\(\),]|(?:%[0-9a-fA-F][0-9a-fA-F]))+"
      text in
  let text := re_sub_empty "\[.*?\]" text in
  let text := re_sub_empty "#.*?#" text in
  py_strip text.

(** Line 160: [any(word in text for word in words)]. *)
Definition mentions (words : list string) (text : string) : bool :=
  existsb (fun word => str_contains word text) words.

(** Lines 157-164, for a cleaned text. *)
Definition matched_topics (text : string) : list string :=
  let matched :=
    map fst (filter (fun topic_words => mentions (snd topic_words) text) get_topic_keywords) in
  if is_nil matched then [other_topic] else matched.

(** Lines 151-167 and 175: the dictionary [topic_counts] returned. *)
Definition analyze_topics (texts : list string) : list (string * Z) :=
  fold_left
    (fun topic_counts text =>
       fold_left (fun counts topic => dict_incr topic counts)
                 (matched_topics (clean_text text)) topic_counts)
    texts [].

(** Line 170: [sum(topic_counts.values())]. *)
Definition total (topic_counts : list (string * Z)) : Z :=
  fold_right Z.add 0 (map snd topic_counts).

(** Line 189: the words kept. *)
Definition keyword_candidates (texts stop_words : list string) : list string :=
  filter (fun word => (1 <? char_count word)%nat && negb (str_mem word stop_words))
         (jieba_cut (String.concat " " (map clean_text texts))).

(** Lines 188-196. *)
Definition extract_keywords (texts stop_words : list string) (top_n : Z)
  : list (string * Z) :=
  most_common top_n (Counter (keyword_candidates texts stop_words)).

End Analyzer.

(** The number of [k] among [keys], and the count of [key] in a
    dictionary of counts. *)
Definition occurrences (k : string) (keys : list string) : Z :=
  Z.of_nat (List.length (filter (String.eqb k) keys)).

Definition count_of (key : string) (counts : list (string * Z)) : Z :=
  match assoc key counts with Some c => c | None => 0 end.

(** The keys of a list in the order of their first occurrence. *)
Fixpoint first_occurrences (keys : list string) : list string :=
  match keys with
  | [] => []
  | k :: rest => k :: filter (fun k' => negb (String.eqb k k')) (first_occurrences rest)
  end.

(** Sorted by decreasing count. *)
Definition descending (items : list (string * Z)) : Prop :=
  StronglySorted (fun a b => snd b <= snd a) items.

(** ** Saving and the callers of the crawler

    [save_to_csv] and [main] of src/crawler.py, and [crawl_data],
    [analyze_data] and the full flow (choice 3) of src/main.py, as far as
    they touch files.  A file system maps the names of the files that
    exist to their contents; writing a file does not fail. *)

Definition filesystem : Type := string -> option string.

Definition write_file (name content : string) (files : filesystem) : filesystem :=
  fun n => if String.eqb n name then Some content else files n.

(** How a call ends: it returns a value, or an exception leaves it. *)
Inductive ending (A : Type) : Type :=
| Returns (a : A)
| Raises.

Arguments Returns {A} a.
Arguments Raises {A}.

(** The library calls of these functions. *)
Class Desktop : Type := {
  (** The text [df.to_csv(filename, index=False, encoding='utf-8-sig')]
      writes. *)
  to_csv : list Post.t -> string;
  (** Lines 224-236 of crawler.py: the statistics are computed and
      printed. *)
  print_statistics : list Post.t -> ending unit;
  (** [int(s)]; [None] when it raises. *)
  py_int : string -> option Z;
  (** [WeiboAnalyzer(filename, 'stopwords.txt').create_visualization()] for
      the contents of the two files: the page rendered to
      weibo_analysis.html, if rendering is reached, and how the call
      ends. *)
  visualization : string -> string -> option string * ending unit
}.

Definition search_keyword : string := "小谢一审".
Definition data_file : string := "weibo_data_improved.csv".

Section Callers.

Context {lib : Library} {world : World} {desktop : Desktop}.

(** crawler.py, lines 221-238. *)
Definition save_to_csv (df : list Post.t) (filename : string) (files : filesystem)
  : filesystem * ending unit :=
  if negb (is_nil df)
  then (write_file filename (to_csv df) files, print_statistics df)
  else (files, Returns tt).

(** crawler.py, lines 250-255. *)
Definition crawler_main (files : filesystem) : filesystem * ending unit :=
  match get_weibo_data search_keyword 50 with
  | Return df =>
      if negb (is_nil df) then save_to_csv df data_file files else (files, Returns tt)
  | Raise _ => (files, Raises)
  end.

(** main.py, lines 27-44; [answer] is what the user types at the prompt
    for the number of pages. *)
Definition crawl_data (answer : string) (files : filesystem) : filesystem * ending string :=
  match py_int (if String.eqb answer "" then "50" else answer) with
  | None => (files, Raises)
  | Some page_num =>
      match get_weibo_data search_keyword page_num with
      | Raise _ => (files, Raises)
      | Return df =>
          match save_to_csv df data_file files with
          | (files', Returns _) => (files', Returns data_file)
          | (files', Raises) => (files', Raises)
          end
      end
  end.

(** main.py, lines 47-63. *)
Definition analyze_data (filename : string) (files : filesystem) : filesystem * ending unit :=
  match files filename with
  | None => (files, Returns tt)
  | Some data =>
      match files "stopwords.txt" with
      | None => (files, Returns tt)
      | Some stopwords =>
          match visualization data stopwords with
          | (Some page, r) => (write_file "weibo_analysis.html" page files, r)
          | (None, r) => (files, r)
          end
      end
  end.

(** main.py, lines 80-84: choice 3. *)
Definition full_flow (answer : string) (files : filesystem) : filesystem * ending unit :=
  match crawl_data answer files with
  | (files', Returns filename) => analyze_data filename files'
  | (files', Raises) => (files', Raises)
  end.

End Callers.

(** ** More sample inputs *)

Module SampleMore.

(** Failing requests between pages that repeat the first. *)
Definition world_flaky : World := {|
  http := fun _ page =>
    match page with
    | 1 => Sample.fresh
    | 2 | 4 | 6 => Sample.stale
    | 3 => Failed
    | 5 => Undecodable
    | _ => Sample.page_of [Sample.direct (Sample.mblog_of "z")]
    end;
  clock := fun _ _ => Sample.now
|}.

Definition body_of (data : list (string * json)) : list (string * json) :=
  [("ok", JInt 1); ("data", JObj data)].

(** Page 1 has a card that is no dictionary, page 2 has no cards. *)
Definition world_odd : World := {|
  http := fun _ page =>
    match page with
    | 1 => Body (JObj (body_of [("cards", JArr [Sample.direct (Sample.mblog_of "a"); JNull])]))
    | 2 => Body (JObj (body_of []))
    | _ => Failed
    end;
  clock := fun _ _ => Sample.now
|}.

(** The record of an mblog that has a text and nothing else, or a text
    and a retweeted_status. *)
Definition post_text (text : string) (is_retweet : Z) : Post.t :=
  Post.mk "" (JStr "") "" text is_retweet (JInt 0) (JInt 0) (JInt 0) (JStr "") (JInt 0)
          (JStr "").

(** Words separated by single spaces. *)
Fixpoint split_spaces (current : string) (s : string) : list string :=
  match s with
  | EmptyString => [current]
  | String c s' =>
      if Ascii.eqb c " " then current :: split_spaces EmptyString s'
      else split_spaces (current ++ String c EmptyString) s'
  end.

(** A library that substitutes nothing, strips nothing and cuts at
    spaces; the only file it reads is stopwords.txt. *)
Definition text_lib : TextLibrary := {|
  re_sub_empty := fun _ text => text;
  py_strip := fun text => text;
  jieba_cut := split_spaces EmptyString;
  read_lines := fun path =>
    if String.eqb path "stopwords.txt" then Some ["法院"; "我们"] else None
|}.

Definition texts : list string :=
  ["法院 一审 判决 微博"; "网友 热议 判决"; "今天 天气 好"; "判决 了"].

Definition desktop : Desktop := {|
  to_csv := fun rows => String.concat "," (map Post.id rows);
  print_statistics := fun _ => Returns tt;
  py_int := fun s =>
    if String.eqb s "50" then Some 50 else if String.eqb s "3" then Some 3 else None;
  visualization := fun data stopwords => (Some ("page of " ++ data), Returns tt)
|}.

(** The files an earlier run left. *)
Definition old_files : filesystem :=
  fun name =>
    if String.eqb name data_file then Some "old rows"
    else if String.eqb name "stopwords.txt" then Some "我们"
    else None.

End SampleMore.

(** ** The card parser *)

Section ParserFacts.

Context {lib : Library}.

Lemma bind_Return {A B : Type} (m : py A) (k : A -> py B) (b : B) :
  bind m k = Return b -> exists a, m = Return a /\ k a = Return b.
Proof. destruct m as [a|e]; simpl; intros H; [eauto | discriminate]. Qed.

Lemma py_get_Return (o : json) (k : string) (dflt v : json) :
  py_get o k dflt = Return v -> exists d, o = JObj d /\ v = lookup d k dflt.
Proof.
  destruct o; simpl; try discriminate.
  intros H; injection H as <-. eauto.
Qed.

Lemma py_get_dict (d : list (string * json)) (k : string) (dflt : json) :
  py_get (JObj d) k dflt = Return (lookup d k dflt).
Proof. reflexivity. Qed.

Lemma py_eq_int (v : json) (n : Z) :
  2 <= n -> py_eq v (JInt n) = true -> v = JInt n.
Proof.
  intros Hn; destruct v as [|[]|m| | |]; cbn [py_eq Z.b2z]; try discriminate.
  - intros H; apply Z.eqb_eq in H; lia.
  - intros H; apply Z.eqb_eq in H; lia.
  - intros H; apply Z.eqb_eq in H; now subst.
Qed.

Lemma parse_mblog_returns (now : string) (mblog : json) :
  exists r, parse_mblog now mblog = Return r.
Proof.
  unfold parse_mblog, try_except.
  destruct (parse_mblog_body now mblog); simpl; eauto.
Qed.

Lemma parse_mblog_caught (now : string) (mblog : json) (e : exn) :
  parse_mblog_body now mblog = Raise e -> parse_mblog now mblog = Return None.
Proof. unfold parse_mblog; intros ->; reflexivity. Qed.

Lemma parse_mblog_Some (now : string) (mblog : json) (r : Post.t) :
  parse_mblog now mblog = Return (Some r) <-> parse_mblog_body now mblog = Return r.
Proof.
  unfold parse_mblog, try_except.
  destruct (parse_mblog_body now mblog); simpl; split; congruence.
Qed.

Lemma parse_weibo_returns (now : string) (card : json) :
  exists r, parse_weibo now card = Return r.
Proof.
  unfold parse_weibo, try_except.
  destruct (parse_weibo_body now card); eauto.
Qed.

Lemma parse_weibo_caught (now : string) (card : json) (e : exn) :
  parse_weibo_body now card = Raise e -> parse_weibo now card = Return None.
Proof. unfold parse_weibo; intros ->; reflexivity. Qed.

Lemma try_except_parse_mblog (now : string) (mblog : json) :
  try_except (parse_mblog now mblog) (fun _ => Return None) = parse_mblog now mblog.
Proof. destruct (parse_mblog_returns now mblog) as [r ->]; reflexivity. Qed.

(** A direct card is parsed as the post body it carries. *)
Lemma parse_weibo_direct (now : string) (card mblog : json) :
  direct_mblog card = Some mblog -> parse_weibo now card = parse_mblog now mblog.
Proof.
  destruct card as [| | | | |d]; cbn [direct_mblog]; try discriminate. cbv zeta.
  destruct (py_eq (lookup d "card_type" JNull) (JInt 9)) eqn:E9; cbn [andb]; [|discriminate].
  destruct (py_truthy (lookup d "mblog" (JObj []))) eqn:Et; [|discriminate].
  intros H; injection H as <-.
  unfold parse_weibo, parse_weibo_body.
  rewrite !py_get_dict. cbn [bind].
  apply py_eq_int in E9; [|lia]. rewrite E9.
  cbn [py_eq Z.eqb Pos.eqb bind].
  rewrite Et. apply try_except_parse_mblog.
Qed.

Lemma scan_passed_over (now : string) (pre rest : list json) :
  Forall passed_over pre ->
  scan_card_group now (pre ++ rest) = scan_card_group now rest.
Proof.
  induction 1 as [|item pre [Hd Hn] _ IH]; [reflexivity|].
  destruct item as [| | | | |d]; try discriminate.
  cbn [direct_mblog] in Hn. cbv zeta in Hn.
  cbn [app scan_card_group]. rewrite !py_get_dict. cbn [bind].
  destruct (py_eq (lookup d "card_type" JNull) (JInt 9)); cbn [andb] in Hn; [|exact IH].
  destruct (py_truthy (lookup d "mblog" (JObj []))); [discriminate | exact IH].
Qed.

Lemma scan_direct (now : string) (sub mblog : json) (rest : list json) :
  direct_mblog sub = Some mblog ->
  scan_card_group now (sub :: rest) = parse_mblog now mblog.
Proof.
  destruct sub as [| | | | |d]; cbn [direct_mblog]; try discriminate. cbv zeta.
  cbn [scan_card_group]. rewrite !py_get_dict. cbn [bind].
  destruct (py_eq (lookup d "card_type" JNull) (JInt 9)); cbn [andb]; [|discriminate].
  destruct (py_truthy (lookup d "mblog" (JObj []))); [|discriminate].
  now intros H; injection H as <-.
Qed.

(** The composite path, given the sub-cards of the card. *)
Lemma parse_weibo_composite (now : string) (d : list (string * json)) (group : list json) :
  lookup d "card_type" JNull = JInt 11 ->
  lookup d "card_group" (JArr []) = JArr group ->
  parse_weibo now (JObj d) =
  try_except (scan_card_group now group) (fun _ => Return None).
Proof.
  intros Ht Hg.
  unfold parse_weibo, parse_weibo_body.
  rewrite !py_get_dict, Ht, Hg. reflexivity.
Qed.

(** C7. A composite card (card_type 11) is parsed as the post body of its
    first sub-card that is a direct card (card_type 9 with a non-empty
    mblog), the sub-cards before it being dictionaries that are not such
    cards; the result is the one [parse_weibo] gives for any direct card
    carrying the same mblog.  When every sub-card is passed over, the
    result is absent. *)
Theorem composite_card_as_direct (now : string) (d : list (string * json)) :
  lookup d "card_type" JNull = JInt 11 ->
  (forall pre sub post mblog direct,
      lookup d "card_group" (JArr []) = JArr (pre ++ sub :: post) ->
      Forall passed_over pre ->
      direct_mblog sub = Some mblog ->
      direct_mblog direct = Some mblog ->
      parse_weibo now (JObj d) = parse_weibo now direct /\
      parse_weibo now (JObj d) = parse_mblog now mblog) /\
  (forall group,
      lookup d "card_group" (JArr []) = JArr group ->
      Forall passed_over group ->
      parse_weibo now (JObj d) = Return None).
Proof.
  intros Ht; split.
  - intros pre sub post mblog direct Hg Hpre Hsub Hdir.
    rewrite (parse_weibo_direct now direct mblog Hdir).
    rewrite (parse_weibo_composite now d _ Ht Hg).
    rewrite scan_passed_over by assumption.
    rewrite (scan_direct now sub mblog post Hsub).
    split; apply try_except_parse_mblog.
  - intros group Hg Hall.
    rewrite (parse_weibo_composite now d _ Ht Hg).
    rewrite <- (app_nil_r group), scan_passed_over by assumption.
    reflexivity.
Qed.

(** *** The post body *)

Lemma mblog_text_dict (d : list (string * json)) :
  mblog_text (JObj d) =
  match assoc "retweeted_status" d with
  | Some retweet_status =>
      retweet_text <- py_get retweet_status "text" (JStr "") ;;
      Return (JStr (py_str (lookup d "text" (JStr "")) ++ " // " ++ py_str retweet_text),
              true)
  | None => Return (lookup d "text" (JStr ""), false)
  end.
Proof.
  unfold mblog_text. rewrite py_get_dict. cbn [bind py_in py_getitem].
  destruct (assoc "retweeted_status" d); reflexivity.
Qed.

Lemma parse_mblog_body_dict (now : string) (d : list (string * json)) :
  parse_mblog_body now (JObj d) =
  (ti <- mblog_text (JObj d) ;;
   text <- py_replace_newline (fst ti) ;;
   match lookup d "user" (JObj []) with
   | JObj user => Return (record_of now d ti text user)
   | _ => Raise AttributeError
   end).
Proof.
  unfold parse_mblog_body.
  destruct (mblog_text (JObj d)) as [ti|e]; [|reflexivity].
  cbn [bind]. rewrite !py_get_dict. cbn [bind].
  destruct (py_replace_newline (fst ti)) as [text|e]; [|reflexivity].
  cbn [bind].
  destruct (lookup d "user" (JObj [])); reflexivity.
Qed.

Lemma parse_mblog_body_inv (now : string) (mblog : json) (r : Post.t) :
  parse_mblog_body now mblog = Return r ->
  exists d ti text user,
    mblog = JObj d /\
    mblog_text (JObj d) = Return ti /\
    py_replace_newline (fst ti) = Return text /\
    lookup d "user" (JObj []) = JObj user /\
    r = record_of now d ti text user.
Proof.
  intros H.
  assert (exists d, mblog = JObj d) as [d ->].
  { unfold parse_mblog_body, mblog_text in H.
    destruct mblog; try discriminate H. eauto. }
  rewrite parse_mblog_body_dict in H.
  apply bind_Return in H as (ti & Hti & H).
  apply bind_Return in H as (text & Htext & H).
  destruct (lookup d "user" (JObj [])) as [| | | | |user] eqn:Hu; try discriminate H.
  injection H as <-.
  exists d, ti, text, user. auto.
Qed.

(** C5 (amended). When [parse_mblog] returns a record for an mblog that
    has a retweeted_status, that value is a dictionary, is_retweet is 1
    (which Python equates with True), and text is the string of the
    comment, the separator " // " and the string of the original text,
    with every newline of the result replaced by a space; for the
    comment "A" and the original "B" the text is "A // B". *)
Theorem repost_text_composition (now : string) (d : list (string * json))
        (retweet_status : json) (r : Post.t) :
  assoc "retweeted_status" d = Some retweet_status ->
  parse_mblog now (JObj d) = Return (Some r) ->
  exists rd,
    retweet_status = JObj rd /\
    Post.is_retweet r = 1 /\
    py_eq (JInt (Post.is_retweet r)) (JBool true) = true /\
    Post.text r =
      str_replace newline " "
        (py_str (lookup d "text" (JStr "")) ++ " // " ++ py_str (lookup rd "text" (JStr ""))) /\
    (lookup d "text" (JStr "") = JStr "A" ->
     lookup rd "text" (JStr "") = JStr "B" ->
     Post.text r = "A // B").
Proof.
  intros Hrt H. apply parse_mblog_Some, parse_mblog_body_inv in H.
  destruct H as (d' & ti & text & user & Hd & Hti & Htext & _ & ->).
  injection Hd as <-.
  rewrite mblog_text_dict, Hrt in Hti.
  apply bind_Return in Hti as (original & Ho & Hti).
  apply py_get_Return in Ho as (rd & -> & ->).
  injection Hti as <-. cbn [fst py_replace_newline] in Htext.
  injection Htext as <-.
  exists rd. cbn [record_of Post.is_retweet Post.text snd].
  repeat split; try reflexivity.
  intros -> ->. reflexivity.
Qed.

(** C9 (amended). In every record [parse_mblog] returns, reposts_count,
    comments_count and attitudes_count are the raw values of the mblog's
    fields of those names and user_followers is the raw followers_count
    of its user, each being the integer 0 when the field (or the user) is
    absent; so each is a non-negative integer whenever the raw value is
    absent or is one. *)
Theorem counts_raw_or_zero (now : string) (mblog : json) (r : Post.t) :
  parse_mblog now mblog = Return (Some r) ->
  exists d user,
    mblog = JObj d /\
    lookup d "user" (JObj []) = JObj user /\
    Post.reposts_count r = lookup d "reposts_count" (JInt 0) /\
    Post.comments_count r = lookup d "comments_count" (JInt 0) /\
    Post.attitudes_count r = lookup d "attitudes_count" (JInt 0) /\
    Post.user_followers r = lookup user "followers_count" (JInt 0) /\
    (assoc "reposts_count" d = None -> Post.reposts_count r = JInt 0) /\
    (assoc "comments_count" d = None -> Post.comments_count r = JInt 0) /\
    (assoc "attitudes_count" d = None -> Post.attitudes_count r = JInt 0) /\
    (assoc "user" d = None \/ assoc "followers_count" user = None ->
     Post.user_followers r = JInt 0) /\
    (nonneg_int (lookup d "reposts_count" (JInt 0)) -> nonneg_int (Post.reposts_count r)) /\
    (nonneg_int (lookup d "comments_count" (JInt 0)) -> nonneg_int (Post.comments_count r)) /\
    (nonneg_int (lookup d "attitudes_count" (JInt 0)) -> nonneg_int (Post.attitudes_count r)) /\
    (nonneg_int (lookup user "followers_count" (JInt 0)) -> nonneg_int (Post.user_followers r)).
Proof.
  intros H. apply parse_mblog_Some, parse_mblog_body_inv in H.
  destruct H as (d & ti & text & user & -> & _ & _ & Hu & ->).
  exists d, user. cbn [record_of Post.reposts_count Post.comments_count
                       Post.attitudes_count Post.user_followers].
  repeat split; auto; unfold lookup.
  - now intros ->.
  - now intros ->.
  - now intros ->.
  - intros [Hn|Hn].
    + unfold lookup in Hu. rewrite Hn in Hu. injection Hu as <-. reflexivity.
    + now rewrite Hn.
Qed.

(** *** Timestamps *)

Lemma normalize_created_at_str (now s : string) :
  normalize_created_at now (JStr s) =
  if str_contains minutes_ago s || str_contains hours_ago s then now
  else match to_datetime (JStr s) with
       | Some t => t
       | None => s
       end.
Proof.
  unfold normalize_created_at. cbn [py_in bind].
  destruct (str_contains minutes_ago s); cbn [orb]; [reflexivity|].
  destruct (str_contains hours_ago s); reflexivity.
Qed.

Lemma parse_mblog_created_at (now : string) (d : list (string * json)) (r : Post.t) :
  parse_mblog now (JObj d) = Return (Some r) ->
  Post.created_at r = normalize_created_at now (lookup d "created_at" (JStr "")).
Proof.
  intros H. apply parse_mblog_Some, parse_mblog_body_inv in H.
  destruct H as (d' & ti & text & user & Hd & _ & _ & _ & ->).
  injection Hd as <-. reflexivity.
Qed.

Lemma mblog_text_agree (d d' : list (string * json)) :
  agree_except "created_at" d d' -> mblog_text (JObj d) = mblog_text (JObj d').
Proof.
  intros H. rewrite !mblog_text_dict. unfold lookup.
  rewrite (H "retweeted_status"), (H "text") by discriminate.
  reflexivity.
Qed.

Lemma parse_mblog_absent_agree (now now' : string) (d d' : list (string * json)) :
  agree_except "created_at" d d' ->
  parse_mblog now (JObj d) = Return None ->
  parse_mblog now' (JObj d') = Return None.
Proof.
  intros H. unfold parse_mblog. rewrite !parse_mblog_body_dict.
  rewrite (mblog_text_agree d d' H).
  replace (lookup d "user" (JObj [])) with (lookup d' "user" (JObj []))
    by (unfold lookup; now rewrite (H "user") by discriminate).
  destruct (mblog_text (JObj d')) as [ti|e]; [|reflexivity].
  cbn [bind]. destruct (py_replace_newline (fst ti)) as [text|e]; [|reflexivity].
  cbn [bind]. destruct (lookup d' "user" (JObj [])); cbn; congruence.
Qed.

(** C6. For an mblog whose created_at is the string [s] (the empty string
    when the field is missing), the created_at of the record is the
    wall clock read at parse time when [s] contains the minutes-ago or
    the hours-ago marker, otherwise the reformatted timestamp when the
    timestamp parser accepts [s], otherwise [s] unchanged.  Whether
    [parse_mblog] gives a record does not depend on the created_at
    field or on the clock: two mblogs that differ at most in created_at
    are both parsed to a record or both to None. *)
Theorem created_at_normalization :
  (forall now d s r,
      lookup d "created_at" (JStr "") = JStr s ->
      parse_mblog now (JObj d) = Return (Some r) ->
      Post.created_at r =
        if str_contains minutes_ago s || str_contains hours_ago s then now
        else match to_datetime (JStr s) with
             | Some t => t
             | None => s
             end) /\
  (forall now now' d d',
      agree_except "created_at" d d' ->
      (parse_mblog now (JObj d) = Return None <->
       parse_mblog now' (JObj d') = Return None)).
Proof.
  split.
  - intros now d s r Hs H.
    rewrite (parse_mblog_created_at now d r H), Hs.
    apply normalize_created_at_str.
  - intros now now' d d' H; split.
    + now apply parse_mblog_absent_agree.
    + apply parse_mblog_absent_agree.
      intros k Hk. symmetry. now apply H.
Qed.

(** C10. For an mblog whose created_at is the string [s], the record
    carries the wall clock exactly when [s] contains "分钟前" or "小时前":
    with either substring the created_at is the clock, whatever the
    timestamp parser would say; with neither it is what the timestamp
    parser returns for [s], or [s] itself when that parser fails,
    whatever the clock shows.  "刚刚" and "3天前" contain neither. *)
Theorem clock_only_for_minutes_and_hours (now : string) (d : list (string * json))
        (s : string) (r : Post.t) :
  lookup d "created_at" (JStr "") = JStr s ->
  parse_mblog now (JObj d) = Return (Some r) ->
  (str_contains "分钟前" s = true \/ str_contains "小时前" s = true ->
   Post.created_at r = now) /\
  (str_contains "分钟前" s = false /\ str_contains "小时前" s = false ->
   Post.created_at r = match to_datetime (JStr s) with
                       | Some t => t
                       | None => s
                       end) /\
  (s = "刚刚" \/ s = "3天前" ->
   Post.created_at r = match to_datetime (JStr s) with
                       | Some t => t
                       | None => s
                       end).
Proof.
  intros Hs H.
  rewrite (parse_mblog_created_at now d r H), Hs, normalize_created_at_str.
  change minutes_ago with "分钟前". change hours_ago with "小时前".
  repeat split.
  - intros [-> | ->]; [reflexivity | now rewrite orb_true_r].
  - intros [-> ->]. reflexivity.
  - intros [-> | ->]; reflexivity.
Qed.

End ParserFacts.

(** ** The accumulator *)

Local Open Scope list_scope.

Section Accumulator.

Lemma seen_app (acc new : list Post.t) (w : Post.t) :
  seen (acc ++ new) w = seen acc w || seen new w.
Proof. unfold seen. apply existsb_app. Qed.

Lemma seen_false (acc : list Post.t) (w : Post.t) :
  seen acc w = false ->
  Forall (fun p => py_eq (Post.bid p) (Post.bid w) = false) acc.
Proof.
  unfold seen. induction acc as [|p acc IH]; cbn [existsb]; intros H.
  - constructor.
  - apply orb_false_iff in H as [Hp Hacc]. constructor; auto.
Qed.

Lemma distinct_bids_snoc (acc : list Post.t) (w : Post.t) :
  distinct_bids acc -> seen acc w = false -> distinct_bids (acc ++ [w]).
Proof.
  unfold distinct_bids. intros Hd Hs. apply seen_false in Hs.
  induction Hd as [|p acc Hp Hd IH]; cbn [app].
  - repeat constructor.
  - inversion Hs as [|? ? Hpw Hs']; subst.
    constructor; [|now apply IH].
    apply Forall_app; split; [assumption | now constructor].
Qed.

Lemma keep_first_app (acc l1 l2 : list Post.t) :
  keep_first acc (l1 ++ l2) = keep_first (keep_first acc l1) l2.
Proof.
  revert acc; induction l1 as [|w l1 IH]; intros acc; [reflexivity|].
  cbn [app keep_first]. apply IH.
Qed.

(** Records are only ever appended, in the order of the stream. *)
Lemma keep_first_extends (acc stream : list Post.t) :
  exists new, keep_first acc stream = acc ++ new /\ subseq new stream.
Proof.
  revert acc; induction stream as [|w stream IH]; intros acc; cbn [keep_first].
  - exists []. rewrite app_nil_r. split; [reflexivity | constructor].
  - destruct (seen acc w).
    + destruct (IH acc) as (new & -> & Hs).
      exists new. split; [reflexivity | now constructor].
    + destruct (IH (acc ++ [w])) as (new & -> & Hs).
      exists (w :: new). rewrite <- app_assoc. split; [reflexivity | now constructor].
Qed.

Lemma keep_first_distinct (acc stream : list Post.t) :
  distinct_bids acc -> distinct_bids (keep_first acc stream).
Proof.
  revert acc; induction stream as [|w stream IH]; intros acc Hd; cbn [keep_first].
  - assumption.
  - destruct (seen acc w) eqn:Hs; apply IH; [assumption|].
    now apply distinct_bids_snoc.
Qed.

Lemma seen_keep_first (acc stream : list Post.t) (w : Post.t) :
  seen acc w = true -> seen (keep_first acc stream) w = true.
Proof.
  intros H. destruct (keep_first_extends acc stream) as (new & -> & _).
  rewrite seen_app, H. reflexivity.
Qed.

Lemma In_keep_first (acc stream : list Post.t) (w : Post.t) :
  In w acc -> In w (keep_first acc stream).
Proof.
  intros H. destruct (keep_first_extends acc stream) as (new & -> & _).
  apply in_or_app. now left.
Qed.

(** Every record of the stream is in the accumulator or was dropped for a
    record that is. *)
Lemma keep_first_covers (acc stream : list Post.t) (w : Post.t) :
  In w stream ->
  In w (keep_first acc stream) \/ seen (keep_first acc stream) w = true.
Proof.
  revert acc; induction stream as [|x stream IH]; intros acc; [intros []|].
  intros [-> | Hin]; cbn [keep_first]; [|now apply IH].
  destruct (seen acc w) eqn:Hs.
  - right. now apply seen_keep_first.
  - left. apply In_keep_first, in_or_app. right. now left.
Qed.

Lemma keep_first_all_seen (acc stream : list Post.t) :
  Forall (fun w => seen acc w = true) stream -> keep_first acc stream = acc.
Proof.
  induction 1 as [|w stream Hw _ IH]; cbn [keep_first]; [reflexivity|].
  now rewrite Hw.
Qed.

Lemma py_eq_scalar_refl (v : json) : is_scalar v = true -> py_eq v v = true.
Proof.
  destruct v as [|[]| | | |]; cbn [is_scalar py_eq Bool.eqb]; try discriminate; intros _.
  - reflexivity.
  - reflexivity.
  - reflexivity.
  - apply Z.eqb_refl.
  - apply String.eqb_refl.
Qed.

(** With scalar bids, distinct for [==] is distinct. *)
Lemma distinct_bids_NoDup (rows : list Post.t) :
  distinct_bids rows ->
  Forall (fun w => is_scalar (Post.bid w) = true) rows ->
  NoDup (map Post.bid rows).
Proof.
  unfold distinct_bids. induction 1 as [|p rows Hp _ IH]; intros Hs; cbn [map].
  - constructor.
  - inversion Hs as [|? ? Hsp Hs']; subst. constructor; [|now apply IH].
    intros Hin. apply in_map_iff in Hin as (q & Hq & Hin).
    rewrite Forall_forall in Hp. specialize (Hp q Hin).
    rewrite Hq, (py_eq_scalar_refl _ Hsp) in Hp. discriminate.
Qed.

End Accumulator.

(** ** The fetch loop *)

Section CrawlerFacts.

Context {lib : Library} {world : World}.

Lemma card_types_dicts (cards tys : list json) :
  card_types cards = Return tys -> Forall (fun card => is_dict card = true) cards.
Proof.
  revert tys; induction cards as [|card cards IH]; intros tys H; [constructor|].
  cbn [card_types] in H.
  apply bind_Return in H as (ty & Hty & H).
  apply bind_Return in H as (tys' & Htys & _).
  apply py_get_Return in Hty as (d & -> & _).
  constructor; [reflexivity | eauto].
Qed.

Lemma page_cards_dicts (containerid : string) (page : Z) (cards : list json) :
  page_cards containerid page = Return (Some cards) ->
  Forall (fun card => is_dict card = true) cards.
Proof.
  unfold page_cards. intros H.
  apply bind_Return in H as (json_data & _ & H).
  apply bind_Return in H as (ok & _ & H).
  apply bind_Return in H as ([] & _ & H); [|discriminate].
  apply bind_Return in H as (data & _ & H).
  apply bind_Return in H as (cs & _ & H).
  apply bind_Return in H as (n & _ & H).
  apply bind_Return in H as (items & _ & H).
  apply bind_Return in H as (tys & Htys & H).
  injection H as <-. eauto using card_types_dicts.
Qed.

(** Once line 170 has passed, the card loop cannot raise: it offers the
    parsed records to the accumulator and counts the insertions. *)
Lemma process_cards_dicts (page : Z) (cards : list json) :
  Forall (fun card => is_dict card = true) cards ->
  forall i all_data new_posts,
    let all_data' := keep_first all_data (parsed_cards page i cards) in
    process_cards page i cards all_data new_posts =
    (all_data',
     Return (new_posts + Z.of_nat (List.length all_data') - Z.of_nat (List.length all_data))).
Proof.
  induction 1 as [|card cards Hd _ IH]; intros i all_data new_posts.
  - cbn. f_equal. f_equal. lia.
  - destruct card as [| | | | |d]; try discriminate.
    cbn [process_cards parsed_cards py_get bind].
    destruct (parse_weibo_returns (clock page i) (JObj d)) as [[w|] ->].
    + cbn [keep_first]. destruct (seen all_data w) eqn:Hs.
      * apply IH.
      * rewrite IH. cbv zeta. f_equal. f_equal.
        rewrite length_app. cbn [List.length]. lia.
    + apply IH.
Qed.

Lemma loop_body_raise (containerid : string) (page : Z) (s : state) (e : exn) :
  page_cards containerid page = Raise e ->
  loop_body containerid page s =
  Return (mkState (all_data s) (consecutive_empty s) (requested s ++ [page]), Next).
Proof. unfold loop_body, try_page. intros ->. reflexivity. Qed.

Lemma loop_body_break (containerid : string) (page : Z) (s : state) :
  page_cards containerid page = Return None ->
  loop_body containerid page s =
  Return (mkState (all_data s) (consecutive_empty s) (requested s ++ [page]), Break).
Proof. unfold loop_body, try_page. intros ->. reflexivity. Qed.

Lemma loop_body_cards (containerid : string) (page : Z) (s : state) (cards : list json) :
  page_cards containerid page = Return (Some cards) ->
  let all_data' := keep_first (all_data s) (parsed_cards page 0 cards) in
  loop_body containerid page s =
  Return (if (List.length all_data' =? List.length (all_data s))%nat
          then (mkState all_data' (consecutive_empty s + 1) (requested s ++ [page]),
                if 3 <=? consecutive_empty s + 1 then Break else Next)
          else (mkState all_data' 0 (requested s ++ [page]), Next)).
Proof.
  intros H. unfold loop_body, try_page. rewrite H.
  rewrite (process_cards_dicts page cards (page_cards_dicts _ _ _ H)).
  cbv zeta.
  destruct (keep_first_extends (all_data s) (parsed_cards page 0 cards)) as (new & -> & _).
  rewrite length_app.
  destruct (Nat.eqb_spec (List.length (all_data s) + List.length new) (List.length (all_data s)))
    as [E|E].
  - replace (0 + _ - _) with 0 by lia. reflexivity.
  - destruct (Z.eqb_spec (0 + Z.of_nat (List.length (all_data s) + List.length new)
                          - Z.of_nat (List.length (all_data s))) 0) as [E'|E']; [lia|].
    reflexivity.
Qed.

(** One iteration always completes; it records the request and offers
    the records parsed on the page to the accumulator. *)
Lemma loop_body_returns (containerid : string) (page : Z) (s : state) :
  exists s' f,
    loop_body containerid page s = Return (s', f) /\
    requested s' = requested s ++ [page] /\
    all_data s' = keep_first (all_data s) (parsed_page containerid page).
Proof.
  unfold parsed_page.
  destruct (page_cards containerid page) as [[cards|]|e] eqn:H.
  - rewrite (loop_body_cards _ _ s _ H). cbv zeta.
    destruct (_ =? _)%nat; do 2 eexists; repeat split; reflexivity.
  - rewrite (loop_body_break _ _ s H). do 2 eexists; repeat split; reflexivity.
  - rewrite (loop_body_raise _ _ s _ H). do 2 eexists; repeat split; reflexivity.
Qed.

(** The loop always completes.  The pages it requested are an initial
    segment of its range, and the accumulator holds the first-seen
    records of those pages. *)
Lemma run_pages_returns (containerid : string) (pages : list Z) (s : state) :
  exists s' done rest,
    run_pages containerid pages s = Return s' /\
    pages = done ++ rest /\
    requested s' = requested s ++ done /\
    all_data s' = keep_first (all_data s) (flat_map (parsed_page containerid) done).
Proof.
  revert s; induction pages as [|page pages IH]; intros s.
  - exists s, [], []. rewrite !app_nil_r. repeat split; reflexivity.
  - destruct (loop_body_returns containerid page s) as (s1 & f & Hb & Hr & Ha).
    cbn [run_pages]. rewrite Hb. cbn [bind snd fst].
    destruct f.
    + destruct (IH s1) as (s' & done & rest & Hrun & -> & Hr' & Ha').
      exists s', (page :: done), rest. rewrite Hrun, Hr', Hr, Ha', Ha.
      cbn [flat_map]. rewrite keep_first_app, <- app_assoc.
      repeat split; reflexivity.
    + exists s1, [page], pages. rewrite Hr, Ha.
      cbn [flat_map]. rewrite app_nil_r. repeat split; reflexivity.
Qed.

(** Running a range in two parts: the loop either stopped in the first
    part or goes on with the second from where the first ended. *)
Lemma run_pages_app (containerid : string) (l1 l2 : list Z) (s : state) :
  exists s1,
    run_pages containerid l1 s = Return s1 /\
    (run_pages containerid (l1 ++ l2) s = Return s1 \/
     run_pages containerid (l1 ++ l2) s = run_pages containerid l2 s1).
Proof.
  revert s; induction l1 as [|page l1 IH]; intros s.
  - exists s. auto.
  - destruct (loop_body_returns containerid page s) as (s1 & f & Hb & _).
    cbn [app run_pages]. rewrite Hb. cbn [bind snd fst].
    destruct f; [apply IH | eauto].
Qed.

Lemma py_range_cons (lo hi : Z) :
  lo < hi -> py_range lo hi = lo :: py_range (lo + 1) hi.
Proof.
  intros H. unfold py_range.
  replace (Z.to_nat (hi - lo)) with (S (Z.to_nat (hi - (lo + 1)))) by lia.
  cbn [seq map]. f_equal; [lia|].
  rewrite <- seq_shift, map_map. apply map_ext. intros i. lia.
Qed.

Lemma py_range_app (lo mid hi : Z) :
  lo <= mid <= hi -> py_range lo hi = py_range lo mid ++ py_range mid hi.
Proof.
  remember (Z.to_nat (mid - lo)) as n eqn:Hn.
  revert lo Hn; induction n as [|n IH]; intros lo Hn H.
  - replace mid with lo by lia.
    unfold py_range at 2. rewrite Z.sub_diag. reflexivity.
  - rewrite (py_range_cons lo hi), (py_range_cons lo mid) by lia.
    cbn [app]. f_equal. apply IH; lia.
Qed.

Lemma py_range_bounds (lo hi page : Z) :
  In page (py_range lo hi) -> lo <= page < hi.
Proof.
  unfold py_range. rewrite in_map_iff. intros (i & <- & Hi).
  apply in_seq in Hi. lia.
Qed.

Lemma process_cards_counts (page : Z) (cards : list json) (all_data all_data' : list Post.t)
      (r : py Z) :
  Forall (fun card => is_dict card = true) cards ->
  process_cards page 0 cards all_data 0 = (all_data', r) ->
  all_data' = keep_first all_data (parsed_cards page 0 cards) /\
  exists new, all_data' = all_data ++ new /\ r = Return (Z.of_nat (List.length new)).
Proof.
  intros Hd H. rewrite (process_cards_dicts page cards Hd) in H. cbv zeta in H.
  injection H as <- <-. split; [reflexivity|].
  destruct (keep_first_extends all_data (parsed_cards page 0 cards)) as (new & -> & _).
  exists new. split; [reflexivity|]. rewrite length_app. f_equal. lia.
Qed.

(** A page whose records are all seen already inserts nothing. *)
Lemma loop_body_stale (containerid : string) (page : Z) (s : state) (cards : list json) :
  page_cards containerid page = Return (Some cards) ->
  reproduces_seen page cards (all_data s) ->
  loop_body containerid page s =
  Return (mkState (all_data s) (consecutive_empty s + 1) (requested s ++ [page]),
          if 3 <=? consecutive_empty s + 1 then Break else Next).
Proof.
  intros H Hs. rewrite (loop_body_cards _ _ s _ H). cbv zeta.
  rewrite (keep_first_all_seen _ _ Hs), Nat.eqb_refl. reflexivity.
Qed.

(** Entered with a counter of at most 2, an iteration leaves it at most 2
    when the loop goes on, and at most 3 when it breaks. *)
Lemma loop_body_counter (containerid : string) (page : Z) (s s' : state) (f : flow) :
  loop_body containerid page s = Return (s', f) ->
  0 <= consecutive_empty s <= 2 ->
  0 <= consecutive_empty s' <= 3 /\ (f = Next -> consecutive_empty s' <= 2).
Proof.
  intros H Hs.
  destruct (page_cards containerid page) as [[cards|]|e] eqn:Hc.
  - rewrite (loop_body_cards _ _ s _ Hc) in H. cbv zeta in H.
    destruct (_ =? _)%nat.
    + destruct (Z.leb_spec 3 (consecutive_empty s + 1)); injection H as <- <-;
        cbn [consecutive_empty]; split; try lia; discriminate.
    + injection H as <- <-. cbn [consecutive_empty]. lia.
  - rewrite (loop_body_break _ _ s Hc) in H. injection H as <- <-.
    cbn [consecutive_empty]. split; [lia | discriminate].
  - rewrite (loop_body_raise _ _ s _ Hc) in H. injection H as <- <-.
    cbn [consecutive_empty]. lia.
Qed.

Lemma run_pages_counter (containerid : string) (pages : list Z) (s s' : state) :
  run_pages containerid pages s = Return s' ->
  0 <= consecutive_empty s <= 2 ->
  0 <= consecutive_empty s' <= 3.
Proof.
  revert s; induction pages as [|page pages IH]; intros s H Hs.
  - injection H as <-. lia.
  - destruct (loop_body_returns containerid page s) as (s1 & f & Hb & _).
    cbn [run_pages] in H. rewrite Hb in H. cbn [bind snd fst] in H.
    destruct (loop_body_counter _ _ _ _ _ Hb Hs) as [H3 H2].
    destruct f.
    + apply (IH s1 H). specialize (H2 eq_refl). lia.
    + injection H as <-. exact H3.
Qed.

(** C1. The loop keeps a counter of consecutive pages without a new post.
    A page that is fetched and whose card loop inserts no record adds 1
    to it, and the iteration ends in [break] exactly when the counter is
    then at least 3; a page that inserts at least one record sets it to
    0 and the loop goes on.  An iteration that ends in [break] ends the
    loop with that page as the last one requested, whatever pages
    remain: so does the page that takes the counter from 2 to 3.  From
    the start of a run the counter stays between 0 and 3.  After a page
    that inserted a record, three pages whose cards only reproduce bids
    already accumulated end the loop: those three pages are requested
    and no later one, and the accumulator is as the first page left
    it. *)
Theorem consecutive_empty_stop (containerid : string) :
  (forall page s cards all_data' new_posts,
      page_cards containerid page = Return (Some cards) ->
      process_cards page 0 cards (all_data s) 0 = (all_data', Return new_posts) ->
      (exists new, all_data' = all_data s ++ new /\ new_posts = Z.of_nat (List.length new)) /\
      (new_posts = 0 ->
       loop_body containerid page s =
       Return (mkState all_data' (consecutive_empty s + 1) (requested s ++ [page]),
               if 3 <=? consecutive_empty s + 1 then Break else Next)) /\
      (1 <= new_posts ->
       loop_body containerid page s =
       Return (mkState all_data' 0 (requested s ++ [page]), Next))) /\
  (forall page rest s s',
      loop_body containerid page s = Return (s', Break) ->
      run_pages containerid (page :: rest) s = Return s' /\
      requested s' = requested s ++ [page]) /\
  (forall page rest s cards all_data',
      page_cards containerid page = Return (Some cards) ->
      process_cards page 0 cards (all_data s) 0 = (all_data', Return 0) ->
      consecutive_empty s = 2 ->
      run_pages containerid (page :: rest) s =
      Return (mkState all_data' 3 (requested s ++ [page]))) /\
  (forall pages s,
      run_pages containerid pages initial = Return s ->
      0 <= consecutive_empty s <= 3) /\
  (forall p0 p1 p2 p3 rest s cards0 cards1 cards2 cards3 all_data' new_posts,
      page_cards containerid p0 = Return (Some cards0) ->
      process_cards p0 0 cards0 (all_data s) 0 = (all_data', Return new_posts) ->
      1 <= new_posts ->
      page_cards containerid p1 = Return (Some cards1) ->
      page_cards containerid p2 = Return (Some cards2) ->
      page_cards containerid p3 = Return (Some cards3) ->
      reproduces_seen p1 cards1 all_data' ->
      reproduces_seen p2 cards2 all_data' ->
      reproduces_seen p3 cards3 all_data' ->
      run_pages containerid (p0 :: p1 :: p2 :: p3 :: rest) s =
      Return (mkState all_data' 3 (requested s ++ [p0; p1; p2; p3]))).
Proof.
  assert (forall page s cards all_data' new_posts,
      page_cards containerid page = Return (Some cards) ->
      process_cards page 0 cards (all_data s) 0 = (all_data', Return new_posts) ->
      (exists new, all_data' = all_data s ++ new /\ new_posts = Z.of_nat (List.length new)) /\
      (new_posts = 0 ->
       loop_body containerid page s =
       Return (mkState all_data' (consecutive_empty s + 1) (requested s ++ [page]),
               if 3 <=? consecutive_empty s + 1 then Break else Next)) /\
      (1 <= new_posts ->
       loop_body containerid page s =
       Return (mkState all_data' 0 (requested s ++ [page]), Next))) as Hpage.
  { intros page s cards all_data' new_posts Hc Hp.
    split.
    - destruct (process_cards_counts _ _ _ _ _ (page_cards_dicts _ _ _ Hc) Hp)
        as (_ & new & -> & Hn).
      injection Hn as ->. eauto.
    - unfold loop_body, try_page. rewrite Hc, Hp. split.
      + intros ->. reflexivity.
      + intros Hn. destruct (Z.eqb_spec new_posts 0); [lia | reflexivity]. }
  split; [exact Hpage|]. split; [|split; [|split]].
  - intros page rest s s' Hb. cbn [run_pages]. rewrite Hb. split; [reflexivity|].
    destruct (loop_body_returns containerid page s) as (s1 & f & Hb' & Hr & _).
    rewrite Hb in Hb'. injection Hb' as -> _. exact Hr.
  - intros page rest s cards all_data' Hc Hp Hs.
    destruct (Hpage page s cards all_data' 0 Hc Hp) as (_ & Hb & _).
    cbn [run_pages]. rewrite (Hb eq_refl), Hs. reflexivity.
  - intros pages s H. apply (run_pages_counter _ _ _ _ H). cbn [initial consecutive_empty]. lia.
  - intros p0 p1 p2 p3 rest s cards0 cards1 cards2 cards3 all_data' new_posts
           H0 Hp Hn H1 H2 H3 S1 S2 S3.
    destruct (Hpage p0 s cards0 all_data' new_posts H0 Hp) as (_ & _ & Hb0).
    cbn [run_pages]. rewrite (Hb0 Hn). cbn [bind snd fst].
    rewrite (loop_body_stale _ p1 (mkState all_data' 0 _) _ H1 S1).
    cbn [bind snd fst all_data consecutive_empty requested Z.add Z.leb Z.compare Pos.compare
         Pos.compare_cont].
    rewrite (loop_body_stale _ p2 (mkState all_data' 1 _) _ H2 S2).
    cbn [bind snd fst all_data consecutive_empty requested Z.add Pos.add Z.leb Z.compare
         Pos.compare Pos.compare_cont].
    rewrite (loop_body_stale _ p3 (mkState all_data' 2 _) _ H3 S3).
    cbn [bind snd fst all_data consecutive_empty requested Z.add Pos.add Pos.succ Z.leb
         Z.compare Pos.compare Pos.compare_cont].
    rewrite <- !app_assoc. reflexivity.
Qed.

(** C2. In the card loop a parsed record is appended exactly when no
    record of the whole accumulator (earlier pages included) has its
    bid; otherwise the loop goes on to the next card with the
    accumulator unchanged.  An iteration only appends to the
    accumulator.  Every run returns, and its rows are the first-seen
    records of the stream of records parsed on the requested pages, in
    the order of that stream: no row has the bid of a row before it (so
    the bids of the rows are pairwise different when they are scalars),
    the rows are a subsequence of the stream, and each parsed record is a
    row or has the bid of a row. *)
Theorem bid_deduplication (keyword : string) (page_num : Z) :
  (forall page i card rest all_data new_posts w,
      is_dict card = true ->
      parse_weibo (clock page i) card = Return (Some w) ->
      process_cards page i (card :: rest) all_data new_posts =
      if seen all_data w
      then process_cards page (S i) rest all_data new_posts
      else process_cards page (S i) rest (all_data ++ [w]) (new_posts + 1)) /\
  (forall containerid page s,
      exists s' f new,
        loop_body containerid page s = Return (s', f) /\
        all_data s' = all_data s ++ new) /\
  exists s,
    crawl keyword page_num = Return s /\
    get_weibo_data keyword page_num = Return (all_data s) /\
    let stream := flat_map (parsed_page (containerid_of keyword)) (requested s) in
    all_data s = keep_first [] stream /\
    distinct_bids (all_data s) /\
    (Forall (fun w => is_scalar (Post.bid w) = true) (all_data s) ->
     NoDup (map Post.bid (all_data s))) /\
    subseq (all_data s) stream /\
    (forall w, In w stream -> In w (all_data s) \/ seen (all_data s) w = true).
Proof.
  split.
  { intros page i card rest all_data new_posts w Hd Hw.
    destruct card as [| | | | |d]; try discriminate.
    cbn [process_cards py_get bind]. rewrite Hw. reflexivity. }
  split.
  { intros containerid page s.
    destruct (loop_body_returns containerid page s) as (s' & f & Hb & _ & Ha).
    destruct (keep_first_extends (all_data s) (parsed_page containerid page))
      as (new & Hnew & _).
    exists s', f, new. rewrite Ha, Hnew. auto. }
  destruct (run_pages_returns (containerid_of keyword) (py_range 1 (page_num + 1)) initial)
    as (s & done & rest & Hrun & _ & Hr & Ha).
  cbn [initial requested all_data app] in Hr, Ha.
  exists s. unfold get_weibo_data, crawl. rewrite Hrun. cbn [bind].
  rewrite Hr. cbv zeta. rewrite Ha.
  assert (distinct_bids (keep_first [] (flat_map (parsed_page (containerid_of keyword)) done)))
    as Hd by (apply keep_first_distinct; constructor).
  repeat split.
  - exact Hd.
  - now apply distinct_bids_NoDup.
  - destruct (keep_first_extends [] (flat_map (parsed_page (containerid_of keyword)) done))
      as (new & -> & Hs). exact Hs.
  - apply keep_first_covers.
Qed.

Lemma page_cards_not_ok (containerid : string) (page : Z) (d : list (string * json)) :
  http containerid page = Body (JObj d) ->
  not_ok d ->
  page_cards containerid page = Return None.
Proof.
  intros Hh Hn. unfold page_cards, fetch_page. rewrite Hh.
  cbn [bind]. rewrite py_get_dict. cbn [bind].
  destruct Hn as [Hok | Hdata].
  - rewrite Hok. reflexivity.
  - destruct (py_eq _ _); [|reflexivity].
    cbn [py_in]. rewrite Hdata. reflexivity.
Qed.

(** C3. When the body of page [k] is a JSON object whose ok is not 1 or
    that has no data, the iteration for [k] ends the loop at once: from
    any loop state, the loop returns that state with [k] recorded as the
    last request, the accumulator and the counter untouched and no page
    after [k] requested.  A run whose range contains [k] therefore
    returns exactly the rows of the run over the pages before [k], and
    requests no page beyond [k]. *)
Theorem provider_failure_stops (keyword : string) (k : Z) (d : list (string * json)) :
  http (containerid_of keyword) k = Body (JObj d) ->
  not_ok d ->
  (forall rest s,
      run_pages (containerid_of keyword) (k :: rest) s =
      Return (mkState (all_data s) (consecutive_empty s) (requested s ++ [k]))) /\
  (forall page_num,
      1 <= k <= page_num ->
      get_weibo_data keyword page_num = get_weibo_data keyword (k - 1) /\
      exists s,
        crawl keyword page_num = Return s /\
        Forall (fun page => page <= k) (requested s)).
Proof.
  intros Hh Hn.
  assert (forall rest s,
      run_pages (containerid_of keyword) (k :: rest) s =
      Return (mkState (all_data s) (consecutive_empty s) (requested s ++ [k]))) as Hstop.
  { intros rest s. cbn [run_pages].
    rewrite (loop_body_break _ _ s (page_cards_not_ok _ _ _ Hh Hn)). reflexivity. }
  split; [exact Hstop|].
  intros page_num Hk.
  unfold get_weibo_data, crawl.
  replace (k - 1 + 1) with k by lia.
  rewrite (py_range_app 1 k (page_num + 1)) by lia.
  rewrite (py_range_cons k (page_num + 1)) by lia.
  destruct (run_pages_returns (containerid_of keyword) (py_range 1 k) initial)
    as (s1 & done & rest1 & Hrun & Hsplit & Hr & _).
  cbn [initial requested app] in Hr.
  assert (Forall (fun page => page <= k) (requested s1)) as Hreq.
  { rewrite Hr. apply Forall_forall. intros page Hin.
    assert (In page (py_range 1 k)) as Hin' by (rewrite Hsplit; apply in_or_app; now left).
    apply py_range_bounds in Hin'. lia. }
  destruct (run_pages_app (containerid_of keyword) (py_range 1 k)
                          (k :: py_range (k + 1) (page_num + 1)) initial)
    as (s1' & Hrun' & [Hall | Hall]);
    rewrite Hrun in Hrun'; injection Hrun' as <-; rewrite Hall, ?Hstop, Hrun.
  - split; [reflexivity|]. eauto.
  - split; [reflexivity|]. eexists; split; [reflexivity|].
    cbn [requested]. apply Forall_app. split; [assumption|].
    constructor; [lia | constructor].
Qed.

Lemma try_page_raise (containerid : string) (page : Z) (s s' : state) (e : exn) :
  try_page containerid page s = (s', Raise e) ->
  page_cards containerid page = Raise e /\
  s' = mkState (all_data s) (consecutive_empty s) (requested s ++ [page]).
Proof.
  unfold try_page.
  destruct (page_cards containerid page) as [[cards|]|e'] eqn:Hc.
  - rewrite (process_cards_dicts page cards (page_cards_dicts _ _ _ Hc)). cbv zeta.
    destruct (_ =? 0); discriminate.
  - discriminate.
  - intros H; injection H as <- <-. auto.
Qed.

Lemma run_pages_all_raise (containerid : string) (pages : list Z) (s : state) :
  (forall page, In page pages -> exists e, page_cards containerid page = Raise e) ->
  run_pages containerid pages s =
  Return (mkState (all_data s) (consecutive_empty s) (requested s ++ pages)).
Proof.
  revert s; induction pages as [|page pages IH]; intros s H.
  - rewrite app_nil_r. now destruct s.
  - destruct (H page (or_introl eq_refl)) as [e He].
    cbn [run_pages]. rewrite (loop_body_raise _ _ s _ He). cbn [bind snd fst].
    rewrite IH by (intros q Hq; apply H; now right).
    cbn [all_data consecutive_empty requested]. rewrite <- app_assoc. reflexivity.
Qed.

(** C4. A failed request, an undecodable body and a body that is not a
    dictionary each raise inside the [try] block of the iteration.
    Whenever that block raises, the exception is caught: the accumulator
    and the consecutive-empty counter are as before the page, the
    iteration completes without [break], and the loop goes on with the
    next page.  [get_weibo_data] returns for every keyword and page
    count; when every page of the range raises, every page is requested
    and the result is empty. *)
Theorem transient_errors_skipped :
  (forall containerid page,
      http containerid page = Failed ->
      page_cards containerid page = Raise RequestException) /\
  (forall containerid page,
      http containerid page = Undecodable ->
      page_cards containerid page = Raise JSONDecodeError) /\
  (forall containerid page json_data,
      http containerid page = Body json_data ->
      is_dict json_data = false ->
      page_cards containerid page = Raise AttributeError) /\
  (forall containerid page rest s e,
      page_cards containerid page = Raise e ->
      let s' := mkState (all_data s) (consecutive_empty s) (requested s ++ [page]) in
      try_page containerid page s = (s', Raise e) /\
      loop_body containerid page s = Return (s', Next) /\
      run_pages containerid (page :: rest) s = run_pages containerid rest s') /\
  (forall containerid page s s' e,
      try_page containerid page s = (s', Raise e) ->
      page_cards containerid page = Raise e) /\
  (forall keyword page_num, exists rows, get_weibo_data keyword page_num = Return rows) /\
  (forall keyword page_num,
      (forall page, 1 <= page <= page_num ->
                    exists e, page_cards (containerid_of keyword) page = Raise e) ->
      crawl keyword page_num = Return (mkState [] 0 (py_range 1 (page_num + 1))) /\
      get_weibo_data keyword page_num = Return []).
Proof.
  split; [|split; [|split; [|split; [|split; [|split]]]]].
  - intros containerid page H. unfold page_cards, fetch_page. now rewrite H.
  - intros containerid page H. unfold page_cards, fetch_page. now rewrite H.
  - intros containerid page json_data H Hd. unfold page_cards, fetch_page. rewrite H.
    destruct json_data; try reflexivity. discriminate.
  - intros containerid page rest s e H. cbv zeta.
    split; [|split].
    + unfold try_page. now rewrite H.
    + apply (loop_body_raise _ _ s _ H).
    + cbn [run_pages]. rewrite (loop_body_raise _ _ s _ H). reflexivity.
  - intros containerid page s s' e H. now apply try_page_raise in H.
  - intros keyword page_num. unfold get_weibo_data, crawl.
    destruct (run_pages_returns (containerid_of keyword) (py_range 1 (page_num + 1)) initial)
      as (s & _ & _ & -> & _). cbn [bind]. eauto.
  - intros keyword page_num H.
    assert (crawl keyword page_num = Return (mkState [] 0 (py_range 1 (page_num + 1)))) as Hc.
    { unfold crawl. rewrite run_pages_all_raise; [reflexivity|].
      intros page Hin. apply H. apply py_range_bounds in Hin. lia. }
    split; [exact Hc|]. unfold get_weibo_data. rewrite Hc. reflexivity.
Qed.

(** C8. [parse_weibo] returns on every card and never raises.  A card whose
    card_type equals neither 9 nor 11, a card that is no dictionary
    included, gives None; so does a card_type 9 card whose mblog is
    missing or empty.  An exception raised inside the [try] block of
    [parse_weibo] or of [parse_mblog] gives None.  In the card loop, a
    card parsed to None leaves the accumulator and the count as they
    are and the loop goes on with the next card. *)
Theorem parse_weibo_total :
  (forall now card, exists r, parse_weibo now card = Return r) /\
  (forall now card,
      (forall ty, py_get card "card_type" JNull = Return ty ->
                  py_eq ty (JInt 9) = false /\ py_eq ty (JInt 11) = false) ->
      parse_weibo now card = Return None) /\
  (forall now card ty mblog,
      py_get card "card_type" JNull = Return ty ->
      py_eq ty (JInt 9) = true ->
      py_get card "mblog" (JObj []) = Return mblog ->
      py_truthy mblog = false ->
      parse_weibo now card = Return None) /\
  (forall now card e,
      parse_weibo_body now card = Raise e -> parse_weibo now card = Return None) /\
  (forall now mblog e,
      parse_mblog_body now mblog = Raise e -> parse_mblog now mblog = Return None) /\
  (forall page i card rest all_data new_posts,
      is_dict card = true ->
      parse_weibo (clock page i) card = Return None ->
      process_cards page i (card :: rest) all_data new_posts =
      process_cards page (S i) rest all_data new_posts).
Proof.
  split; [exact parse_weibo_returns|].
  split.
  { intros now card H.
    unfold parse_weibo, parse_weibo_body.
    destruct (py_get card "card_type" JNull) as [ty|e] eqn:E; [|reflexivity].
    destruct (H ty eq_refl) as [H9 H11]. cbn [bind]. rewrite H11.
    cbn [bind]. rewrite H9. reflexivity. }
  split.
  { intros now card ty mblog Hty H9 Hm Ht.
    unfold parse_weibo, parse_weibo_body.
    rewrite Hty. cbn [bind].
    apply py_eq_int in H9; [|lia]. subst ty.
    cbn [py_eq Z.eqb Pos.eqb bind].
    rewrite Hm. cbn [bind]. rewrite Ht. reflexivity. }
  split; [exact parse_weibo_caught|].
  split; [exact parse_mblog_caught|].
  intros page i card rest all_data new_posts Hd Hp.
  destruct card; try discriminate.
  cbn [process_cards py_get bind]. rewrite Hp. reflexivity.
Qed.

End CrawlerFacts.

(** ** More about the card parser *)

Section ParserMore.

Context {lib : Library}.

Lemma parse_mblog_dict (now : string) (d : list (string * json)) :
  parse_mblog now (JObj d) =
  match mblog_text (JObj d) with
  | Return ti =>
      match py_replace_newline (fst ti), lookup d "user" (JObj []) with
      | Return text, JObj user => Return (Some (record_of now d ti text user))
      | _, _ => Return None
      end
  | Raise _ => Return None
  end.
Proof.
  unfold parse_mblog. rewrite parse_mblog_body_dict.
  destruct (mblog_text (JObj d)) as [ti|e]; [|reflexivity].
  cbn [bind]. destruct (py_replace_newline (fst ti)) as [text|e]; [|reflexivity].
  cbn [bind]. destruct (lookup d "user" (JObj [])); reflexivity.
Qed.

(** X1. [parse_mblog] gives a record exactly for the accepted mblogs: a
    dictionary whose user, if present, is a dictionary and which either
    has a retweeted_status that is a dictionary or has none and a text
    that is a string (or no text).  Every other value gives None. *)
Theorem parse_mblog_accepts (now : string) (mblog : json) :
  (mblog_accepted mblog = true -> exists r, parse_mblog now mblog = Return (Some r)) /\
  (mblog_accepted mblog = false -> parse_mblog now mblog = Return None).
Proof.
  destruct mblog as [| | | | |d]; try (split; [discriminate | reflexivity]).
  rewrite parse_mblog_dict, mblog_text_dict. cbn [mblog_accepted].
  destruct (assoc "retweeted_status" d) as [rt|].
  - destruct rt; cbn [py_get bind is_dict andb fst py_replace_newline];
      try (split; [discriminate | reflexivity]).
    destruct (lookup d "user" (JObj [])); cbn [is_dict];
      split; intros H; first [discriminate H | reflexivity | eauto].
  - destruct (lookup d "text" (JStr "")); cbn [fst py_replace_newline is_str andb];
      try (split; [discriminate | reflexivity]).
    destruct (lookup d "user" (JObj [])); cbn [is_dict];
      split; intros H; first [discriminate H | reflexivity | eauto].
Qed.

Lemma str_replace_gone (old new : ascii) (s : string) :
  old <> new ->
  str_contains (String old EmptyString) (str_replace old new s) = false.
Proof.
  intros Hne. induction s as [|c s IH]; [reflexivity|].
  cbn [str_replace str_contains String.prefix].
  rewrite IH, orb_false_r.
  destruct (Ascii.eqb_spec c old) as [->|Hc].
  - destruct (Ascii.ascii_dec old new); [contradiction | reflexivity].
  - destruct (Ascii.ascii_dec old c); [congruence | reflexivity].
Qed.

(** X2. The text of a record never contains a newline character. *)
Theorem record_text_single_line (now : string) (mblog : json) (r : Post.t) :
  parse_mblog now mblog = Return (Some r) ->
  str_contains (String newline EmptyString) (Post.text r) = false.
Proof.
  intros H. apply parse_mblog_Some, parse_mblog_body_inv in H.
  destruct H as (d & ti & text & user & _ & _ & Htext & _ & ->).
  cbn [record_of Post.text].
  destruct (fst ti); try discriminate Htext.
  injection Htext as <-. apply str_replace_gone. discriminate.
Qed.

(** X3. In a record, is_retweet is 1 when the mblog has the key
    retweeted_status and 0 when it has not; in the second case the mblog's
    text is a string and the record's text is that string with its
    newlines replaced by spaces. *)
Theorem is_retweet_flag (now : string) (d : list (string * json)) (r : Post.t) :
  parse_mblog now (JObj d) = Return (Some r) ->
  (assoc "retweeted_status" d <> None /\ Post.is_retweet r = 1) \/
  (assoc "retweeted_status" d = None /\ Post.is_retweet r = 0 /\
   exists s, lookup d "text" (JStr "") = JStr s /\
             Post.text r = str_replace newline " " s).
Proof.
  intros H. apply parse_mblog_Some, parse_mblog_body_inv in H.
  destruct H as (d' & ti & text & user & Hd & Hti & Htext & _ & ->).
  injection Hd as <-. rewrite mblog_text_dict in Hti.
  destruct (assoc "retweeted_status" d) as [rt|].
  - left. apply bind_Return in Hti as (original & _ & Hti). injection Hti as <-.
    split; [discriminate | reflexivity].
  - right. injection Hti as <-. cbn [fst] in Htext.
    destruct (lookup d "text" (JStr "")) as [| | |s| |] eqn:Hs; try discriminate Htext.
    injection Htext as <-. repeat split. eauto.
Qed.

Lemma scan_card_group_Some (now : string) (items : list json) (r : Post.t) :
  scan_card_group now items = Return (Some r) ->
  exists pre sub post mblog,
    items = (pre ++ sub :: post)%list /\
    Forall passed_over pre /\
    direct_mblog sub = Some mblog /\
    parse_mblog now mblog = Return (Some r).
Proof.
  induction items as [|item items IH]; [discriminate|].
  cbn [scan_card_group]. intros H.
  apply bind_Return in H as (ty & Hty & H).
  apply py_get_Return in Hty as (d & -> & ->).
  assert (forall pre sub post mblog,
             items = (pre ++ sub :: post)%list /\ Forall passed_over pre /\
             direct_mblog sub = Some mblog /\ parse_mblog now mblog = Return (Some r) ->
             direct_mblog (JObj d) = None ->
             exists pre sub post mblog,
               JObj d :: items = (pre ++ sub :: post)%list /\ Forall passed_over pre /\
               direct_mblog sub = Some mblog /\ parse_mblog now mblog = Return (Some r))
    as Hskip.
  { intros pre sub post mblog (-> & Hpre & Hsub & Hp) Hn.
    exists (JObj d :: pre), sub, post, mblog.
    repeat split; try assumption. constructor; [|assumption]. split; [reflexivity | assumption]. }
  destruct (py_eq (lookup d "card_type" JNull) (JInt 9)) eqn:E9.
  - rewrite py_get_dict in H. cbn [bind] in H.
    destruct (py_truthy (lookup d "mblog" (JObj []))) eqn:Et.
    + exists [], (JObj d), items, (lookup d "mblog" (JObj [])).
      repeat split; try assumption; [constructor|].
      cbn [direct_mblog]. cbv zeta. rewrite E9, Et. reflexivity.
    + destruct (IH H) as (pre & sub & post & mblog & Hall).
      apply (Hskip pre sub post mblog Hall).
      cbn [direct_mblog]. cbv zeta. rewrite E9, Et. reflexivity.
  - destruct (IH H) as (pre & sub & post & mblog & Hall).
    apply (Hskip pre sub post mblog Hall).
    cbn [direct_mblog]. cbv zeta. rewrite E9. reflexivity.
Qed.

(** X4. A record [parse_weibo] returns is always the record [parse_mblog]
    gives for a post body carried by a card of type 9: the card itself, or,
    for a card of type 11 whose card_group is a list, the first item of
    the list that is such a card, every item before it being a dictionary
    that is not. *)
Theorem parse_weibo_provenance (now : string) (card : json) (r : Post.t) :
  parse_weibo now card = Return (Some r) ->
  exists d mblog,
    card = JObj d /\
    parse_mblog now mblog = Return (Some r) /\
    ((lookup d "card_type" JNull = JInt 9 /\ direct_mblog card = Some mblog) \/
     (lookup d "card_type" JNull = JInt 11 /\
      exists pre sub post,
        lookup d "card_group" (JArr []) = JArr (pre ++ sub :: post) /\
        Forall passed_over pre /\
        direct_mblog sub = Some mblog)).
Proof.
  unfold parse_weibo, parse_weibo_body. intros H.
  destruct card as [| | | | |d]; try discriminate H.
  rewrite !py_get_dict in H. cbn [bind] in H.
  destruct (py_eq (lookup d "card_type" JNull) (JInt 11)) eqn:E11.
  - apply py_eq_int in E11; [|lia].
    destruct (lookup d "card_group" (JArr [])) as [| | |s|items|g] eqn:Hg;
      cbn [py_iter bind] in H; try discriminate H.
    + exfalso. destruct s as [|c s]; [discriminate H|].
      cbn in H. discriminate H.
    + destruct (scan_card_group now items) as [[r'|]|e] eqn:Hs; try discriminate H.
      cbn [try_except] in H. injection H as ->.
      apply scan_card_group_Some in Hs as (pre & sub & post & mblog & -> & Hpre & Hsub & Hp).
      exists d, mblog. repeat split; try assumption.
      right. split; [assumption|]. exists pre, sub, post. auto.
    + exfalso. destruct g as [|[k v] g]; [discriminate H|].
      cbn in H. discriminate H.
  - destruct (py_eq (lookup d "card_type" JNull) (JInt 9)) eqn:E9; [|discriminate H].
    cbn [bind] in H.
    destruct (py_truthy (lookup d "mblog" (JObj []))) eqn:Et; [|discriminate H].
    rewrite try_except_parse_mblog in H.
    exists d, (lookup d "mblog" (JObj [])). repeat split; try assumption.
    left. split; [now apply py_eq_int in E9; [|lia]|].
    cbn [direct_mblog]. cbv zeta. rewrite E9, Et. reflexivity.
Qed.

Lemma parse_mblog_clock (now now' : string) (mblog : json) :
  same_but_created_at (parse_mblog now mblog) (parse_mblog now' mblog).
Proof.
  destruct mblog as [| | | | |d]; try exact I.
  rewrite !parse_mblog_dict.
  destruct (mblog_text (JObj d)) as [ti|e]; [|exact I].
  destruct (py_replace_newline (fst ti)) as [text|e]; [|exact I].
  destruct (lookup d "user" (JObj [])); try exact I.
  reflexivity.
Qed.

Lemma scan_card_group_clock (now now' : string) (items : list json) :
  same_but_created_at (try_except (scan_card_group now items) (fun _ => Return None))
                      (try_except (scan_card_group now' items) (fun _ => Return None)).
Proof.
  induction items as [|item items IH]; [exact I|].
  cbn [scan_card_group].
  destruct (py_get item "card_type" JNull) as [ty|e]; [|exact I].
  cbn [bind]. destruct (py_eq ty (JInt 9)); [|exact IH].
  destruct (py_get item "mblog" (JObj [])) as [mblog|e]; [|exact I].
  cbn [bind]. destruct (py_truthy mblog); [|exact IH].
  rewrite !try_except_parse_mblog. apply parse_mblog_clock.
Qed.

Lemma parse_weibo_same_but_created_at (now now' : string) (card : json) :
  same_but_created_at (parse_weibo now card) (parse_weibo now' card).
Proof.
  unfold parse_weibo, parse_weibo_body.
  destruct (py_get card "card_type" JNull) as [ty|e]; [|exact I].
  cbn [bind]. destruct (py_eq ty (JInt 11)).
  - destruct (py_get card "card_group" (JArr [])) as [g|e]; [|exact I].
    cbn [bind]. destruct (py_iter g) as [items|e]; [|exact I].
    cbn [bind]. apply scan_card_group_clock.
  - destruct (py_eq ty (JInt 9)); [|exact I].
    destruct (py_get card "mblog" (JObj [])) as [mblog|e]; [|exact I].
    cbn [bind]. destruct (py_truthy mblog); [|exact I].
    rewrite !try_except_parse_mblog. apply parse_mblog_clock.
Qed.

Lemma parse_weibo_bid_clock (now now' : string) (card : json) (r : Post.t) :
  parse_weibo now card = Return (Some r) ->
  exists r', parse_weibo now' card = Return (Some r') /\ Post.bid r' = Post.bid r.
Proof.
  intros Hr. pose proof (parse_weibo_same_but_created_at now now' card) as Hsame.
  rewrite Hr in Hsame. unfold same_but_created_at in Hsame.
  destruct (parse_weibo now' card) as [[r'|]|e]; try contradiction.
  exists r'. split; [reflexivity|]. rewrite Hsame. reflexivity.
Qed.

(** X5. The clock only reaches created_at: parsing one card at two times
    gives None both times, or two records equal in every field but
    created_at.  In particular the bid, on which the accumulator decides,
    does not depend on when the card is parsed. *)
Theorem parse_weibo_clock (now now' : string) (card : json) :
  same_but_created_at (parse_weibo now card) (parse_weibo now' card) /\
  (forall r, parse_weibo now card = Return (Some r) ->
             exists r', parse_weibo now' card = Return (Some r') /\
                        Post.bid r' = Post.bid r).
Proof.
  split.
  - apply parse_weibo_same_but_created_at.
  - apply parse_weibo_bid_clock.
Qed.

End ParserMore.

(** ** More about the fetch loop *)

Section CrawlerMore.

Context {lib : Library} {world : World}.

Lemma seen_same_bid (all_data : list Post.t) (w w' : Post.t) :
  Post.bid w = Post.bid w' -> seen all_data w = seen all_data w'.
Proof. unfold seen. now intros ->. Qed.

Lemma seen_member (all_data : list Post.t) (w w' : Post.t) :
  In w all_data ->
  Post.bid w = Post.bid w' ->
  is_scalar (Post.bid w) = true ->
  seen all_data w' = true.
Proof.
  intros Hin Hb Hs. unfold seen. apply existsb_exists. exists w. split; [assumption|].
  rewrite <- Hb. now apply py_eq_scalar_refl.
Qed.

Lemma parsed_cards_bids (page page' : Z) (cards : list json) :
  forall i i',
    map Post.bid (parsed_cards page i cards) = map Post.bid (parsed_cards page' i' cards).
Proof.
  induction cards as [|card cards IH]; intros i i'; [reflexivity|].
  cbn [parsed_cards].
  pose proof (parse_weibo_same_but_created_at (clock page i) (clock page' i') card) as H.
  unfold same_but_created_at in H.
  destruct (parse_weibo (clock page i) card) as [[r|]|e],
           (parse_weibo (clock page' i') card) as [[r'|]|e']; try contradiction;
    try apply IH.
  cbn [map]. rewrite H at 1. cbn [with_created_at Post.bid]. f_equal. apply IH.
Qed.

Lemma In_same_bids (l l' : list Post.t) (w' : Post.t) :
  map Post.bid l = map Post.bid l' ->
  In w' l' ->
  exists w, In w l /\ Post.bid w = Post.bid w'.
Proof.
  revert l'; induction l as [|x l IH]; intros [|x' l'] Hm Hin; try discriminate Hm.
  - destruct Hin.
  - cbn [map] in Hm. injection Hm as Hx Hm. destruct Hin as [<- | Hin].
    + exists x. split; [now left | assumption].
    + destruct (IH l' Hm Hin) as (w & Hw & Hb). exists w. split; [now right | assumption].
Qed.

(** X6. Offering the cards of a page to the accumulator a second time, as
    cards of any page and at any time, inserts nothing, when the bids of
    their records are scalars: the accumulator stays as the first pass
    left it and the page counts no new post. *)
Theorem process_cards_twice (page page' : Z) (cards : list json) (all_data : list Post.t) :
  Forall (fun card => is_dict card = true) cards ->
  Forall (fun w => is_scalar (Post.bid w) = true) (parsed_cards page 0 cards) ->
  process_cards page' 0 cards (fst (process_cards page 0 cards all_data 0)) 0 =
  (fst (process_cards page 0 cards all_data 0), Return 0).
Proof.
  intros Hd Hs.
  rewrite (process_cards_dicts page cards Hd). cbv zeta. cbn [fst].
  rewrite (process_cards_dicts page' cards Hd). cbv zeta.
  rewrite keep_first_all_seen.
  - f_equal. f_equal. lia.
  - apply Forall_forall. intros w' Hw'.
    destruct (In_same_bids _ _ w' (parsed_cards_bids page page' cards 0%nat 0%nat) Hw')
      as (w & Hw & Hb).
    rewrite Forall_forall in Hs.
    destruct (keep_first_covers all_data _ w Hw) as [Hin | Hseen].
    + apply (seen_member _ w w' Hin Hb). now apply Hs.
    + now rewrite <- (seen_same_bid _ w w' Hb).
Qed.

(** X7. A post without a bid gets the empty string as its bid, so once the
    accumulator holds the record of one such post, the record of every
    other post without a bid is taken for a duplicate, whatever the two
    posts contain. *)
Theorem missing_bid_collides (now now' : string) (d d' : list (string * json))
        (r r' : Post.t) (all_data : list Post.t) :
  assoc "bid" d = None ->
  assoc "bid" d' = None ->
  parse_mblog now (JObj d) = Return (Some r) ->
  parse_mblog now' (JObj d') = Return (Some r') ->
  In r all_data ->
  Post.bid r = JStr "" /\ Post.bid r' = JStr "" /\ seen all_data r' = true.
Proof.
  intros Hb Hb' Hr Hr' Hin.
  apply parse_mblog_Some, parse_mblog_body_inv in Hr, Hr'.
  destruct Hr as (d1 & ti & text & user & Hd1 & _ & _ & _ & ->).
  destruct Hr' as (d2 & ti' & text' & user' & Hd2 & _ & _ & _ & ->).
  injection Hd1 as <-. injection Hd2 as <-.
  assert (forall t x u, Post.bid (record_of now d t x u) = JStr "") as E.
  { intros. cbn [record_of Post.bid]. unfold lookup. now rewrite Hb. }
  assert (forall t x u, Post.bid (record_of now' d' t x u) = JStr "") as E'.
  { intros. cbn [record_of Post.bid]. unfold lookup. now rewrite Hb'. }
  repeat split; [apply E | apply E' |].
  apply (seen_member _ _ _ Hin); rewrite E; [now rewrite E' | reflexivity].
Qed.

Lemma py_range_nil (lo hi : Z) : hi <= lo -> py_range lo hi = [].
Proof.
  intros H. unfold py_range. replace (Z.to_nat (hi - lo)) with 0%nat by lia. reflexivity.
Qed.

Lemma py_range_initial (done rest : list Z) :
  forall lo hi,
    py_range lo hi = done ++ rest ->
    done = py_range lo (lo + Z.of_nat (List.length done)) /\
    lo + Z.of_nat (List.length done) <= Z.max lo hi.
Proof.
  induction done as [|x done IH]; intros lo hi H.
  - cbn [List.length]. rewrite py_range_nil by lia. split; [reflexivity | lia].
  - destruct (Z_lt_le_dec lo hi) as [Hlt | Hge].
    + rewrite (py_range_cons lo hi Hlt) in H. cbn [app] in H. injection H as <- H.
      destruct (IH _ _ H) as [Hd Hb].
      cbn [List.length]. rewrite (py_range_cons lo) by lia.
      replace (lo + Z.of_nat (S (List.length done)))
        with (lo + 1 + Z.of_nat (List.length done)) by lia.
      split; [now f_equal | lia].
    + rewrite py_range_nil in H by lia. discriminate H.
Qed.

(** X8. A run requests the pages 1, 2, ..., k in this order and each once,
    for some k from 0 to page_num; no other request is made.  With a page
    count of 0 or less nothing is requested and the result is empty. *)
Theorem requested_pages_initial_segment (keyword : string) (page_num : Z) :
  exists s k,
    crawl keyword page_num = Return s /\
    0 <= k <= Z.max 0 page_num /\
    requested s = py_range 1 (k + 1) /\
    (page_num <= 0 -> s = initial).
Proof.
  unfold crawl.
  destruct (run_pages_returns (containerid_of keyword) (py_range 1 (page_num + 1)) initial)
    as (s & done & rest & Hrun & Hsplit & Hr & _).
  cbn [initial requested app] in Hr.
  destruct (py_range_initial done rest _ _ Hsplit) as [Hd Hb].
  exists s, (Z.of_nat (List.length done)).
  repeat split; try lia.
  - assumption.
  - rewrite Hr, Hd at 1. f_equal. lia.
  - intros Hn. rewrite py_range_nil in Hrun by lia. now injection Hrun as <-.
Qed.

Lemma run_pages_appends (containerid : string) (pages : list Z) (s s' : state) :
  run_pages containerid pages s = Return s' ->
  initial_segment (all_data s) (all_data s').
Proof.
  intros H.
  destruct (run_pages_returns containerid pages s) as (s1 & done & rest & Hrun & _ & _ & Ha).
  rewrite H in Hrun. injection Hrun as <-.
  destruct (keep_first_extends (all_data s) (flat_map (parsed_page containerid) done))
    as (new & Hnew & _).
  exists new. now rewrite Ha.
Qed.

(** X9. Asking for more pages only appends: the rows of a run over n pages
    are an initial segment of the rows of the run over m pages, for n at
    most m, the world being the same. *)
Theorem more_pages_only_append (keyword : string) (n m : Z) :
  n <= m ->
  exists rows rows',
    get_weibo_data keyword n = Return rows /\
    get_weibo_data keyword m = Return rows' /\
    initial_segment rows rows'.
Proof.
  intros Hnm. unfold get_weibo_data, crawl.
  destruct (Z_le_gt_dec n 0) as [Hn | Hn].
  - rewrite (py_range_nil 1 (n + 1)) by lia. cbn [run_pages bind initial all_data].
    destruct (run_pages_returns (containerid_of keyword) (py_range 1 (m + 1)) initial)
      as (s & _ & _ & -> & _).
    exists [], (all_data s). repeat split. now exists (all_data s).
  - rewrite (py_range_app 1 (n + 1) (m + 1)) by lia.
    destruct (run_pages_app (containerid_of keyword) (py_range 1 (n + 1))
                            (py_range (n + 1) (m + 1)) initial)
      as (s1 & Hrun & [Hall | Hall]); rewrite Hall, Hrun; cbn [bind].
    + exists (all_data s1), (all_data s1). repeat split. exists []. now rewrite app_nil_r.
    + destruct (run_pages_returns (containerid_of keyword) (py_range (n + 1) (m + 1)) s1)
        as (s2 & _ & _ & Hrun2 & _).
      rewrite Hrun2. cbn [bind].
      exists (all_data s1), (all_data s2). repeat split.
      apply (run_pages_appends _ _ _ _ Hrun2).
Qed.

Lemma subseq_In {A : Type} (l m : list A) (x : A) : subseq l m -> In x l -> In x m.
Proof.
  induction 1 as [|y l m _ IH|y l m _ IH]; intros Hin.
  - assumption.
  - right. now apply IH.
  - destruct Hin as [-> | Hin]; [now left | right; now apply IH].
Qed.

Lemma In_parsed_cards (page : Z) (cards : list json) (w : Post.t) :
  forall i,
    In w (parsed_cards page i cards) ->
    exists j card,
      nth_error cards j = Some card /\
      parse_weibo (clock page (i + j)) card = Return (Some w).
Proof.
  induction cards as [|card cards IH]; intros i Hin; [destruct Hin|].
  cbn [parsed_cards] in Hin.
  assert (In w (parsed_cards page (S i) cards) ->
          exists j c, nth_error (card :: cards) j = Some c /\
                      parse_weibo (clock page (i + j)) c = Return (Some w)) as Hrest.
  { intros H. destruct (IH _ H) as (j & c & Hj & Hp).
    exists (S j), c. split; [assumption|]. now rewrite Nat.add_succ_r. }
  destruct (parse_weibo (clock page i) card) as [[r|]|e] eqn:Hp; try (now apply Hrest).
  destruct Hin as [-> | Hin]; [|now apply Hrest].
  exists 0%nat, card. split; [reflexivity|]. now rewrite Nat.add_0_r.
Qed.

(** X10. Every row of the result is the record the card parser gave for
    some card of some requested page whose body passed line 166: the
    loop returns nothing that was not parsed from a response. *)
Theorem rows_come_from_cards (keyword : string) (page_num : Z) :
  exists s,
    crawl keyword page_num = Return s /\
    get_weibo_data keyword page_num = Return (all_data s) /\
    forall w,
      In w (all_data s) ->
      exists page cards i card,
        In page (requested s) /\
        page_cards (containerid_of keyword) page = Return (Some cards) /\
        nth_error cards i = Some card /\
        parse_weibo (clock page i) card = Return (Some w).
Proof.
  unfold get_weibo_data, crawl.
  destruct (run_pages_returns (containerid_of keyword) (py_range 1 (page_num + 1)) initial)
    as (s & done & rest & Hrun & _ & Hr & Ha).
  cbn [initial requested all_data app] in Hr, Ha.
  exists s. rewrite Hrun. repeat split. intros w Hw.
  rewrite Ha in Hw.
  destruct (keep_first_extends [] (flat_map (parsed_page (containerid_of keyword)) done))
    as (new & Hnew & Hsub).
  rewrite Hnew in Hw. cbn [app] in Hw.
  apply (subseq_In _ _ _ Hsub) in Hw.
  apply in_flat_map in Hw as (page & Hpage & Hw).
  unfold parsed_page in Hw.
  destruct (page_cards (containerid_of keyword) page) as [[cards|]|e] eqn:Hc;
    try destruct Hw.
  destruct (In_parsed_cards _ _ _ _ Hw) as (j & card & Hj & Hp).
  exists page, cards, j, card. rewrite Hr. auto.
Qed.

Lemma keep_first_same_length (acc stream : list Post.t) :
  List.length (keep_first acc stream) = List.length acc -> keep_first acc stream = acc.
Proof.
  destruct (keep_first_extends acc stream) as (new & -> & _).
  rewrite length_app. destruct new; cbn [List.length]; [|lia].
  now rewrite app_nil_r.
Qed.

(** Why an iteration breaks. *)
Lemma loop_body_Break (containerid : string) (page : Z) (s s' : state) :
  loop_body containerid page s = Return (s', Break) ->
  consecutive_empty s <= 2 ->
  (page_cards containerid page = Return None /\
   consecutive_empty s' = consecutive_empty s /\ all_data s' = all_data s) \/
  (exists cards,
      page_cards containerid page = Return (Some cards) /\
      consecutive_empty s = 2 /\ consecutive_empty s' = 3 /\ all_data s' = all_data s).
Proof.
  intros H Hs.
  destruct (page_cards containerid page) as [[cards|]|e] eqn:Hc.
  - right. rewrite (loop_body_cards _ _ s _ Hc) in H. cbv zeta in H.
    destruct (Nat.eqb_spec (List.length (keep_first (all_data s) (parsed_cards page 0 cards)))
                           (List.length (all_data s))) as [E|E]; [|discriminate H].
    destruct (Z.leb_spec 3 (consecutive_empty s + 1)); [|discriminate H].
    injection H as <-. cbn [consecutive_empty all_data].
    exists cards. repeat split; try lia. now apply keep_first_same_length.
  - left. rewrite (loop_body_break _ _ s Hc) in H. injection H as <-. auto.
  - rewrite (loop_body_raise _ _ s _ Hc) in H. discriminate H.
Qed.

Lemma run_pages_stop (containerid : string) (pages : list Z) :
  forall s s',
    run_pages containerid pages s = Return s' ->
    0 <= consecutive_empty s <= 2 ->
    requested s' = requested s ++ pages \/
    exists pre k post,
      pages = pre ++ k :: post /\
      requested s' = requested s ++ pre ++ [k] /\
      (page_cards containerid k = Return None \/
       (consecutive_empty s' = 3 /\
        exists cards, page_cards containerid k = Return (Some cards))).
Proof.
  induction pages as [|page pages IH]; intros s s' H Hs.
  - left. injection H as <-. now rewrite app_nil_r.
  - destruct (loop_body_returns containerid page s) as (s1 & f & Hb & Hr1 & _).
    cbn [run_pages] in H. rewrite Hb in H. cbn [bind snd fst] in H.
    destruct f.
    + destruct (loop_body_counter _ _ _ _ _ Hb Hs) as [H3 H2]. specialize (H2 eq_refl).
      destruct (IH s1 s' H) as [Hall | (pre & k & post & -> & Hr & Hwhy)]; [lia | |].
      * left. rewrite Hall, Hr1, <- app_assoc. reflexivity.
      * right. exists (page :: pre), k, post.
        rewrite Hr, Hr1, <- app_assoc. auto.
    + injection H as <-. right. exists [], page, pages.
      split; [reflexivity|]. split; [exact Hr1|].
      destruct (loop_body_Break _ _ _ _ Hb) as [(Hc & _) | (cards & Hc & _ & H3 & _)];
        [lia | now left | right; eauto].
Qed.

Lemma py_range_snoc (lo hi : Z) :
  lo <= hi -> py_range lo (hi + 1) = py_range lo hi ++ [hi].
Proof.
  intros H. rewrite (py_range_app lo hi (hi + 1)) by lia. f_equal.
  rewrite py_range_cons by lia. now rewrite py_range_nil by lia.
Qed.

(** X11. A run stops before the end of its range for two reasons only: the
    last page it requested had a body that failed line 166 (the provider's
    refusal), or that page was fetched and completed three empty pages,
    the counter being 3. *)
Theorem early_stop_reasons (keyword : string) (page_num : Z) :
  exists s,
    crawl keyword page_num = Return s /\
    (requested s = py_range 1 (page_num + 1) \/
     exists k,
       1 <= k <= page_num /\
       requested s = py_range 1 (k + 1) /\
       (page_cards (containerid_of keyword) k = Return None \/
        (consecutive_empty s = 3 /\
         exists cards, page_cards (containerid_of keyword) k = Return (Some cards)))).
Proof.
  unfold crawl.
  destruct (run_pages_returns (containerid_of keyword) (py_range 1 (page_num + 1)) initial)
    as (s & _ & _ & Hrun & _).
  exists s. split; [assumption|].
  destruct (run_pages_stop _ _ _ _ Hrun) as [Hall | (pre & k & post & Hsplit & Hr & Hwhy)].
  - cbn [initial consecutive_empty]. lia.
  - left. exact Hall.
  - right. cbn [initial requested app] in Hr.
    replace (pre ++ k :: post) with ((pre ++ [k]) ++ post) in Hsplit
      by (rewrite <- app_assoc; reflexivity).
    destruct (py_range_initial _ _ _ _ Hsplit) as [Hd _].
    rewrite length_app in Hd. cbn [List.length] in Hd.
    assert (In k (py_range 1 (page_num + 1))) as Hk.
    { rewrite Hsplit. apply in_or_app. left. apply in_or_app. right. now left. }
    apply py_range_bounds in Hk.
    assert (k = Z.of_nat (List.length pre) + 1) as Ek.
    { replace (1 + Z.of_nat (List.length pre + 1)) with (Z.of_nat (List.length pre) + 1 + 1)
        in Hd by lia.
      rewrite py_range_snoc in Hd by lia.
      now apply app_inj_tail in Hd as [_ ->]. }
    exists k. split; [lia|]. split; [|exact Hwhy].
    rewrite Hr, Hd. f_equal. lia.
Qed.

Lemma run_pages_skip_raising (containerid : string) (errs rest : list Z) :
  Forall (fun page => exists e, page_cards containerid page = Raise e) errs ->
  forall s,
    run_pages containerid (errs ++ rest) s =
    run_pages containerid rest
              (mkState (all_data s) (consecutive_empty s) (requested s ++ errs)).
Proof.
  induction 1 as [|page errs [e He] _ IH]; intros s.
  - rewrite app_nil_r. now destruct s.
  - cbn [app run_pages]. rewrite (loop_body_raise _ _ s _ He). cbn [bind snd fst].
    rewrite IH. cbn [all_data consecutive_empty requested].
    rewrite <- app_assoc. reflexivity.
Qed.

(** X12. The three empty pages that stop the loop need not be adjacent:
    pages whose iteration raises leave the counter as it is, so three
    pages without a new post stop the loop also when failing pages lie
    between them. *)
Theorem failed_pages_keep_counter (containerid : string) (p1 p2 p3 : Z)
        (errs1 errs2 rest : list Z) (cards1 cards2 cards3 : list json) (s : state) :
  consecutive_empty s = 0 ->
  page_cards containerid p1 = Return (Some cards1) ->
  page_cards containerid p2 = Return (Some cards2) ->
  page_cards containerid p3 = Return (Some cards3) ->
  reproduces_seen p1 cards1 (all_data s) ->
  reproduces_seen p2 cards2 (all_data s) ->
  reproduces_seen p3 cards3 (all_data s) ->
  Forall (fun page => exists e, page_cards containerid page = Raise e) errs1 ->
  Forall (fun page => exists e, page_cards containerid page = Raise e) errs2 ->
  run_pages containerid (p1 :: errs1 ++ p2 :: errs2 ++ p3 :: rest) s =
  Return (mkState (all_data s) 3 (requested s ++ p1 :: errs1 ++ p2 :: errs2 ++ [p3])).
Proof.
  intros Hs H1 H2 H3 S1 S2 S3 E1 E2.
  cbn [run_pages]. rewrite (loop_body_stale _ _ _ _ H1 S1), Hs. cbn [bind snd fst].
  rewrite (run_pages_skip_raising _ _ _ E1). cbn [all_data consecutive_empty requested].
  cbn [run_pages]. rewrite (loop_body_stale _ p2 (mkState (all_data s) 1 _) _ H2 S2).
  cbn [bind snd fst all_data consecutive_empty requested].
  rewrite (run_pages_skip_raising _ _ _ E2). cbn [all_data consecutive_empty requested].
  cbn [run_pages]. rewrite (loop_body_stale _ p3 (mkState (all_data s) 2 _) _ H3 S3).
  cbn [bind snd fst all_data consecutive_empty requested].
  change (3 <=? 0 + 1) with false. change (3 <=? 1 + 1) with false.
  change (3 <=? 2 + 1) with true. cbv iota. change (2 + 1) with 3.
  rewrite <- !app_assoc. reflexivity.
Qed.

Lemma card_types_raise (cards : list json) :
  existsb (fun card => negb (is_dict card)) cards = true ->
  card_types cards = Raise AttributeError.
Proof.
  induction cards as [|card cards IH]; [discriminate|].
  cbn [existsb card_types]. intros H.
  destruct card; try reflexivity.
  cbn [is_dict negb orb] in H. cbn [py_get bind]. now rewrite (IH H).
Qed.

(** X13. One card that is not a dictionary loses its whole page: line 170
    raises before any card is parsed, so no record of the page is
    inserted, the counter keeps its value and the loop goes on with the
    next page. *)
Theorem malformed_card_skips_page (containerid : string) (page : Z) (s : state)
        (d data : list (string * json)) (cards : list json) :
  http containerid page = Body (JObj d) ->
  py_eq (lookup d "ok" JNull) (JInt 1) = true ->
  assoc "data" d = Some (JObj data) ->
  lookup data "cards" (JArr []) = JArr cards ->
  existsb (fun card => negb (is_dict card)) cards = true ->
  page_cards containerid page = Raise AttributeError /\
  parsed_page containerid page = [] /\
  loop_body containerid page s =
  Return (mkState (all_data s) (consecutive_empty s) (requested s ++ [page]), Next).
Proof.
  intros Hh Hok Hdata Hcards Hbad.
  assert (page_cards containerid page = Raise AttributeError) as Hc.
  { unfold page_cards, fetch_page. rewrite Hh. cbn [bind].
    rewrite py_get_dict. cbn [bind]. rewrite Hok. cbn [py_in]. rewrite Hdata.
    cbn [bind py_getitem]. rewrite Hdata. cbn [bind].
    rewrite py_get_dict, Hcards. cbn [bind py_len py_iter].
    now rewrite (card_types_raise _ Hbad). }
  split; [exact Hc|]. split.
  - unfold parsed_page. now rewrite Hc.
  - apply (loop_body_raise _ _ s _ Hc).
Qed.

(** X14. A body that passes line 166 but has no cards in its data, the key
    being absent or the list empty, is an empty page: it inserts
    nothing, adds 1 to the counter, and ends the loop when that makes
    3. *)
Theorem page_without_cards_is_empty (containerid : string) (page : Z) (s : state)
        (d data : list (string * json)) :
  http containerid page = Body (JObj d) ->
  py_eq (lookup d "ok" JNull) (JInt 1) = true ->
  assoc "data" d = Some (JObj data) ->
  lookup data "cards" (JArr []) = JArr [] ->
  loop_body containerid page s =
  Return (mkState (all_data s) (consecutive_empty s + 1) (requested s ++ [page]),
          if 3 <=? consecutive_empty s + 1 then Break else Next).
Proof.
  intros Hh Hok Hdata Hcards.
  assert (page_cards containerid page = Return (Some [])) as Hc.
  { unfold page_cards, fetch_page. rewrite Hh. cbn [bind].
    rewrite py_get_dict. cbn [bind]. rewrite Hok. cbn [py_in]. rewrite Hdata.
    cbn [bind py_getitem]. rewrite Hdata. cbn [bind].
    rewrite py_get_dict, Hcards. reflexivity. }
  apply (loop_body_stale _ _ _ _ Hc). constructor.
Qed.

End CrawlerMore.

(** ** Dictionaries of counts *)

Section CountFacts.

Lemma str_mem_In (w : string) (words : list string) :
  str_mem w words = true <-> In w words.
Proof.
  unfold str_mem. rewrite existsb_exists. split.
  - intros (x & Hx & E). apply String.eqb_eq in E. now subst.
  - intros H. exists w. split; [assumption | apply String.eqb_refl].
Qed.

Lemma assoc_In {A : Type} (k : string) (d : list (string * A)) (v : A) :
  assoc k d = Some v -> In (k, v) d.
Proof.
  induction d as [|[k' v'] d IH]; [discriminate|].
  cbn [assoc]. destruct (String.eqb_spec k k') as [->|_].
  - intros H; injection H as ->. now left.
  - intros H. right. now apply IH.
Qed.

Lemma assoc_None {A : Type} (k : string) (d : list (string * A)) :
  assoc k d = None <-> ~ In k (map fst d).
Proof.
  induction d as [|[k' v'] d IH]; cbn [assoc map fst].
  - split; [intros _ [] | reflexivity].
  - destruct (String.eqb_spec k k') as [->|Hne].
    + split; [discriminate | intros H; destruct H; now left].
    + rewrite IH. split.
      * intros H [E|Hin]; [congruence | contradiction].
      * intros H Hin. apply H. now right.
Qed.

(** In a dictionary, an item is what lookup finds. *)
Lemma assoc_NoDup {A : Type} (k : string) (d : list (string * A)) (v : A) :
  NoDup (map fst d) -> In (k, v) d -> assoc k d = Some v.
Proof.
  induction d as [|[k' v'] d IH]; [intros _ []|].
  cbn [map fst assoc]. intros Hnd [E|Hin].
  - injection E as -> ->. now rewrite String.eqb_refl.
  - inversion Hnd as [|? ? Hk Hnd']; subst.
    destruct (String.eqb_spec k k') as [->|_]; [|now apply IH].
    destruct Hk. apply in_map_iff. now exists (k', v).
Qed.

Lemma count_of_incr (k key : string) (counts : list (string * Z)) :
  count_of k (dict_incr key counts) =
  count_of k counts + (if String.eqb k key then 1 else 0).
Proof.
  unfold count_of. induction counts as [|[k0 c] rest IH]; cbn [dict_incr assoc].
  - destruct (String.eqb k key); reflexivity.
  - destruct (String.eqb_spec k0 key) as [->|Hne]; cbn [assoc].
    + destruct (String.eqb k key); lia.
    + destruct (String.eqb_spec k k0) as [->|Hk].
      * destruct (String.eqb_spec k0 key); [contradiction | lia].
      * exact IH.
Qed.

Lemma keys_incr (key : string) (counts : list (string * Z)) :
  map fst (dict_incr key counts) =
  map fst counts ++ (if str_mem key (map fst counts) then [] else [key]).
Proof.
  unfold str_mem. induction counts as [|[k0 c] rest IH]; cbn [dict_incr map fst existsb app].
  - reflexivity.
  - rewrite (String.eqb_sym key k0).
    destruct (String.eqb k0 key); cbn [map fst orb].
    + now rewrite app_nil_r.
    + now rewrite IH.
Qed.

Lemma NoDup_incr (key : string) (counts : list (string * Z)) :
  NoDup (map fst counts) -> NoDup (map fst (dict_incr key counts)).
Proof.
  intros H. rewrite keys_incr.
  destruct (str_mem key (map fst counts)) eqn:E; [now rewrite app_nil_r|].
  apply NoDup_app; repeat split; try assumption.
  - repeat constructor. intros [].
  - intros x Hx [<- | []]. apply str_mem_In in Hx. congruence.
Qed.

Lemma positive_incr (key : string) (counts : list (string * Z)) :
  Forall (fun kc => 1 <= snd kc) counts ->
  Forall (fun kc => 1 <= snd kc) (dict_incr key counts).
Proof.
  induction 1 as [|[k0 c] rest Hc Hrest IH]; cbn [dict_incr].
  - repeat constructor. cbn. lia.
  - cbn [snd] in Hc. destruct (String.eqb k0 key); constructor; cbn [snd]; try lia; assumption.
Qed.

Lemma fold_incr_count (k : string) (keys : list string) :
  forall counts,
    count_of k (fold_left (fun counts w => dict_incr w counts) keys counts) =
    count_of k counts + occurrences k keys.
Proof.
  unfold occurrences.
  induction keys as [|w keys IH]; intros counts; cbn [fold_left filter].
  - cbn. lia.
  - rewrite IH, count_of_incr. destruct (String.eqb k w); cbn [List.length]; lia.
Qed.

Lemma fold_incr_keys (k : string) (keys : list string) :
  forall counts,
    In k (map fst (fold_left (fun counts w => dict_incr w counts) keys counts)) <->
    In k (map fst counts) \/ In k keys.
Proof.
  induction keys as [|w keys IH]; intros counts; cbn [fold_left].
  - cbn. tauto.
  - rewrite IH, keys_incr, in_app_iff.
    destruct (str_mem w (map fst counts)) eqn:E; cbn [In].
    + apply str_mem_In in E. split; [tauto|].
      intros [H|[->|H]]; tauto.
    + split; [intros [[H|[->|[]]]|H]; tauto | intros [H|[->|H]]; tauto].
Qed.

Lemma fold_incr_NoDup (keys : list string) :
  forall counts,
    NoDup (map fst counts) ->
    NoDup (map fst (fold_left (fun counts w => dict_incr w counts) keys counts)).
Proof.
  induction keys as [|w keys IH]; intros counts H; cbn [fold_left]; [assumption|].
  apply IH. now apply NoDup_incr.
Qed.

Lemma fold_incr_positive (keys : list string) :
  forall counts,
    Forall (fun kc => 1 <= snd kc) counts ->
    Forall (fun kc => 1 <= snd kc) (fold_left (fun counts w => dict_incr w counts) keys counts).
Proof.
  induction keys as [|w keys IH]; intros counts H; cbn [fold_left]; [assumption|].
  apply IH. now apply positive_incr.
Qed.

Lemma count_of_item (k : string) (c : Z) (counts : list (string * Z)) :
  NoDup (map fst counts) -> In (k, c) counts -> count_of k counts = c.
Proof. intros Hnd Hin. unfold count_of. now rewrite (assoc_NoDup _ _ _ Hnd Hin). Qed.

(** The items of a [Counter]: each word that occurs, once, with the number
    of its occurrences. *)
Lemma Counter_items (words : list string) (w : string) (c : Z) :
  In (w, c) (Counter words) <-> In w words /\ c = occurrences w words.
Proof.
  unfold Counter.
  assert (NoDup (map fst (fold_left (fun counts w => dict_incr w counts) words [])))
    as Hnd by (apply fold_incr_NoDup; constructor).
  split.
  - intros Hin. split.
    + assert (In w (map fst (fold_left (fun counts w => dict_incr w counts) words [])))
        as Hk by (apply in_map_iff; now exists (w, c)).
      apply fold_incr_keys in Hk as [[]|Hk]. exact Hk.
    + rewrite <- (count_of_item _ _ _ Hnd Hin), fold_incr_count. reflexivity.
  - intros [Hin ->].
    assert (In w (map fst (fold_left (fun counts w => dict_incr w counts) words [])))
      as Hk by (apply fold_incr_keys; now right).
    destruct (assoc w (fold_left (fun counts w => dict_incr w counts) words [])) as [c|] eqn:E.
    + pose proof (fold_incr_count w words []) as Hc.
      unfold count_of at 1 in Hc. rewrite E in Hc. cbn in Hc.
      rewrite <- Hc. now apply assoc_In.
    + apply assoc_None in E. contradiction.
Qed.

Lemma insert_desc_perm (x : string * Z) (l : list (string * Z)) :
  Permutation (insert_desc x l) (x :: l).
Proof.
  induction l as [|y l IH]; cbn [insert_desc]; [reflexivity|].
  destruct (snd x <? snd y); [|reflexivity].
  rewrite IH. apply perm_swap.
Qed.

Lemma sorted_desc_perm (l : list (string * Z)) : Permutation (sorted_desc l) l.
Proof.
  induction l as [|x l IH]; cbn [sorted_desc fold_right]; [reflexivity|].
  fold (sorted_desc l). rewrite insert_desc_perm. now constructor.
Qed.

Lemma insert_desc_descending (x : string * Z) (l : list (string * Z)) :
  descending l -> descending (insert_desc x l).
Proof.
  unfold descending. induction 1 as [|y l Hl IH Hy]; cbn [insert_desc].
  - repeat constructor.
  - destruct (Z.ltb_spec (snd x) (snd y)) as [Hlt|Hge].
    + constructor; [assumption|].
      eapply Permutation_Forall; [symmetry; apply insert_desc_perm|].
      constructor; [lia | assumption].
    + constructor; [now constructor|].
      constructor; [lia|].
      apply (Forall_impl _ (P := fun b => snd b <= snd y)); [intros; lia | assumption].
Qed.

Lemma sorted_desc_descending (l : list (string * Z)) : descending (sorted_desc l).
Proof.
  induction l as [|x l IH]; cbn [sorted_desc fold_right]; [constructor|].
  now apply insert_desc_descending.
Qed.

(** The sort is stable: the items of one count keep their order. *)
Lemma insert_desc_stable (c : Z) (x : string * Z) (l : list (string * Z)) :
  filter (fun y => snd y =? c) (insert_desc x l) =
  filter (fun y => snd y =? c) (x :: l).
Proof.
  induction l as [|y l IH]; cbn [insert_desc]; [reflexivity|].
  destruct (Z.ltb_spec (snd x) (snd y)) as [Hlt|Hge]; [|reflexivity].
  cbn [filter] in IH |- *. rewrite IH.
  destruct (Z.eqb_spec (snd x) c), (Z.eqb_spec (snd y) c); try reflexivity. lia.
Qed.

Lemma sorted_desc_stable (c : Z) (l : list (string * Z)) :
  filter (fun y => snd y =? c) (sorted_desc l) = filter (fun y => snd y =? c) l.
Proof.
  induction l as [|x l IH]; cbn [sorted_desc fold_right]; [reflexivity|].
  fold (sorted_desc l). rewrite insert_desc_stable. cbn [filter]. now rewrite IH.
Qed.

Lemma descending_app (l1 l2 : list (string * Z)) (x y : string * Z) :
  descending (l1 ++ l2) -> In x l1 -> In y l2 -> snd y <= snd x.
Proof.
  unfold descending. induction l1 as [|a l1 IH]; [intros _ []|].
  cbn [app]. intros H [->|Hx] Hy; inversion H as [|? ? Hs Hf]; subst.
  - rewrite Forall_forall in Hf. apply Hf, in_or_app. now right.
  - now apply IH.
Qed.

End CountFacts.

(** ** The analyzer *)

Section AnalyzerFacts.

Context {text_lib : TextLibrary}.

Lemma topics_NoDup : NoDup (map fst get_topic_keywords).
Proof.
  cbn [get_topic_keywords map fst].
  repeat (constructor; [cbn [In]; intros H; repeat (destruct H as [H|H]; [discriminate H|]);
                        exact H|]).
  constructor.
Qed.

Lemma other_topic_fresh : ~ In other_topic (map fst get_topic_keywords).
Proof.
  cbn [get_topic_keywords map fst In]. unfold other_topic.
  intros H; repeat (destruct H as [H|H]; [discriminate H|]); exact H.
Qed.

Lemma filter_keys_In (table : list (string * list string)) (f : string * list string -> bool)
      (topic : string) :
  In topic (map fst (filter f table)) <->
  exists words, In (topic, words) table /\ f (topic, words) = true.
Proof.
  rewrite in_map_iff. split.
  - intros ([t ws] & <- & Hin). apply filter_In in Hin. now exists ws.
  - intros (ws & Hin & Hf). exists (topic, ws). split; [reflexivity|].
    apply filter_In. auto.
Qed.

Lemma filter_keys_NoDup (table : list (string * list string)) (f : string * list string -> bool) :
  NoDup (map fst table) -> NoDup (map fst (filter f table)).
Proof.
  induction table as [|[t ws] table IH]; cbn [map fst filter]; [constructor|].
  intros H. inversion H as [|? ? Ht Hnd]; subst.
  destruct (f (t, ws)); [|now apply IH].
  cbn [map fst]. constructor; [|now apply IH].
  intros Hin. apply Ht. apply filter_keys_In in Hin as (ws' & Hin & _).
  apply in_map_iff. now exists (t, ws').
Qed.

Lemma is_nil_filter_keys (table : list (string * list string))
      (f : string * list string -> bool) :
  is_nil (map fst (filter f table)) = forallb (fun tw => negb (f tw)) table.
Proof.
  induction table as [|tw table IH]; cbn [filter map forallb]; [reflexivity|].
  destruct (f tw); cbn [map is_nil negb andb]; [reflexivity | exact IH].
Qed.

Lemma matched_topics_NoDup (text : string) : NoDup (matched_topics text).
Proof.
  unfold matched_topics. cbv zeta.
  destruct (is_nil _).
  - repeat constructor. intros [].
  - apply filter_keys_NoDup, topics_NoDup.
Qed.

(** A topic of the table is matched exactly when the text mentions one of
    its words. *)
Lemma matched_topic (text topic : string) (words : list string) :
  In (topic, words) get_topic_keywords ->
  str_mem topic (matched_topics text) = mentions words text.
Proof.
  intros Hin. apply eq_true_iff_eq. rewrite str_mem_In.
  unfold matched_topics. cbv zeta.
  assert (topic <> other_topic) as Hne.
  { intros ->. apply other_topic_fresh. apply in_map_iff. now exists (other_topic, words). }
  assert (In topic (map fst (filter (fun tw => mentions (snd tw) text) get_topic_keywords)) <->
          mentions words text = true) as Hkey.
  { rewrite filter_keys_In. cbn [snd]. split.
    - intros (ws & Hin' & Hm).
      pose proof (assoc_NoDup _ _ _ topics_NoDup Hin) as E.
      rewrite (assoc_NoDup _ _ _ topics_NoDup Hin') in E. now injection E as <-.
    - intros Hm. now exists words. }
  destruct (is_nil _) eqn:En.
  - split.
    + intros [E|[]]. now destruct Hne.
    + intros Hm. apply Hkey in Hm.
      destruct (map fst _); [destruct Hm | discriminate En].
  - exact Hkey.
Qed.

(** The other topic is matched exactly when no word of the table is
    mentioned. *)
Lemma matched_other (text : string) :
  str_mem other_topic (matched_topics text) =
  forallb (fun tw => negb (mentions (snd tw) text)) get_topic_keywords.
Proof.
  unfold matched_topics. cbv zeta.
  rewrite <- (is_nil_filter_keys get_topic_keywords (fun tw => mentions (snd tw) text)).
  destruct (is_nil _) eqn:En.
  - unfold str_mem. cbn [existsb]. now rewrite String.eqb_refl.
  - apply not_true_is_false. rewrite str_mem_In. intros Hin.
    apply filter_keys_In in Hin as (ws & Hin & _).
    apply other_topic_fresh. apply in_map_iff. now exists (other_topic, ws).
Qed.

Lemma matched_topics_known (text topic : string) :
  In topic (matched_topics text) ->
  topic = other_topic \/ In topic (map fst get_topic_keywords).
Proof.
  unfold matched_topics. cbv zeta. destruct (is_nil _).
  - intros [<-|[]]. now left.
  - intros Hin. right. apply filter_keys_In in Hin as (ws & Hin & _).
    apply in_map_iff. now exists (topic, ws).
Qed.

Lemma matched_topics_length (text : string) :
  (1 <= List.length (matched_topics text) <= 5)%nat.
Proof.
  unfold matched_topics. cbv zeta.
  pose proof (filter_length_le (fun tw => mentions (snd tw) text) get_topic_keywords) as H.
  change (List.length get_topic_keywords) with 5%nat in H.
  rewrite <- (length_map fst) in H.
  destruct (map fst _); cbn [is_nil List.length] in *; lia.
Qed.

Lemma occurrences_NoDup (k : string) (keys : list string) :
  NoDup keys -> occurrences k keys = if str_mem k keys then 1 else 0.
Proof.
  unfold occurrences, str_mem. induction 1 as [|x keys Hx _ IH]; [reflexivity|].
  cbn [filter existsb]. destruct (String.eqb_spec k x) as [->|Hne]; cbn [orb].
  - assert (filter (String.eqb x) keys = []) as ->; [|reflexivity].
    clear IH. induction keys as [|y keys IH']; [reflexivity|].
    cbn [filter]. destruct (String.eqb_spec x y) as [->|_].
    + destruct Hx. now left.
    + apply IH'. intros Hin. apply Hx. now right.
  - exact IH.
Qed.

Lemma analyze_count (topic : string) (texts : list string) :
  forall counts,
    count_of topic
      (fold_left
         (fun topic_counts text =>
            fold_left (fun counts t => dict_incr t counts)
                      (matched_topics (clean_text text)) topic_counts)
         texts counts) =
    count_of topic counts +
    Z.of_nat (List.length
                (filter (fun text => str_mem topic (matched_topics (clean_text text))) texts)).
Proof.
  induction texts as [|text texts IH]; intros counts; cbn [fold_left filter].
  - cbn. lia.
  - rewrite IH, fold_incr_count, (occurrences_NoDup _ _ (matched_topics_NoDup _)).
    destruct (str_mem topic (matched_topics (clean_text text))); cbn [List.length]; lia.
Qed.

(** X15. [analyze_topics] counts, under each topic of the table, the
    texts whose cleaned form contains one of the topic's words, a text
    being counted under every topic it matches, and under "其他讨论" the
    texts that contain no word of the table.  No other key gets a
    count. *)
Theorem topic_counts_exact (texts : list string) :
  (forall topic words,
      In (topic, words) get_topic_keywords ->
      count_of topic (analyze_topics texts) =
      Z.of_nat (List.length (filter (fun text => mentions words (clean_text text)) texts))) /\
  count_of other_topic (analyze_topics texts) =
  Z.of_nat (List.length
              (filter (fun text =>
                         forallb (fun tw => negb (mentions (snd tw) (clean_text text)))
                                 get_topic_keywords)
                      texts)) /\
  (forall topic,
      count_of topic (analyze_topics texts) <> 0 ->
      topic = other_topic \/ In topic (map fst get_topic_keywords)).
Proof.
  unfold analyze_topics. split; [|split].
  - intros topic words Hin. rewrite analyze_count. cbn [count_of assoc].
    rewrite Z.add_0_l. do 2 f_equal. apply filter_ext. intros text.
    now apply matched_topic.
  - rewrite analyze_count. cbn [count_of assoc]. rewrite Z.add_0_l. do 2 f_equal.
    apply filter_ext. intros text. apply matched_other.
  - intros topic. rewrite analyze_count. cbn [count_of assoc]. rewrite Z.add_0_l.
    intros Hn.
    destruct (filter (fun text => str_mem topic (matched_topics (clean_text text))) texts)
      as [|text l] eqn:E; [now destruct Hn|].
    assert (In text (text :: l)) as Hin by now left.
    rewrite <- E in Hin. apply filter_In in Hin as [_ Hm].
    apply str_mem_In in Hm. now apply matched_topics_known in Hm.
Qed.

Lemma total_incr (key : string) (counts : list (string * Z)) :
  total (dict_incr key counts) = total counts + 1.
Proof.
  unfold total. induction counts as [|[k c] rest IH]; cbn [dict_incr map snd fold_right].
  - lia.
  - destruct (String.eqb k key); cbn [map snd fold_right]; lia.
Qed.

Lemma total_fold_incr (keys : list string) :
  forall counts,
    total (fold_left (fun counts t => dict_incr t counts) keys counts) =
    total counts + Z.of_nat (List.length keys).
Proof.
  induction keys as [|k keys IH]; intros counts; cbn [fold_left List.length].
  - lia.
  - rewrite IH, total_incr. lia.
Qed.

Lemma total_positive (counts : list (string * Z)) :
  Forall (fun kc => 1 <= snd kc) counts -> counts <> [] -> 1 <= total counts.
Proof.
  unfold total. intros H Hne. destruct H as [|kc rest Hkc Hrest]; [now destruct Hne|].
  cbn [map fold_right].
  assert (0 <= fold_right Z.add 0 (map snd rest)) as H0.
  { clear Hne Hkc. induction Hrest as [|x l Hx _ IH]; cbn [map fold_right]; lia. }
  lia.
Qed.

(** X16. The dictionary [analyze_topics] returns has distinct keys and
    counts between 1 and the number of texts; the sum of its counts is at
    least the number of texts (every text is counted at least once) and
    at most five times that number.  So the total by which line 172
    divides is not 0 whenever there is a count to divide. *)
Theorem topic_totals (texts : list string) :
  let topic_counts := analyze_topics texts in
  let n := Z.of_nat (List.length texts) in
  n <= total topic_counts <= 5 * n /\
  Forall (fun tc => 1 <= snd tc <= n) topic_counts /\
  NoDup (map fst topic_counts) /\
  (topic_counts <> [] -> total topic_counts <> 0).
Proof.
  cbv zeta. unfold analyze_topics.
  assert (forall counts,
             let after :=
               fold_left
                 (fun topic_counts text =>
                    fold_left (fun counts t => dict_incr t counts)
                              (matched_topics (clean_text text)) topic_counts)
                 texts counts in
             (total counts + Z.of_nat (List.length texts) <= total after
              <= total counts + 5 * Z.of_nat (List.length texts)) /\
             (Forall (fun kc => 1 <= snd kc) counts -> Forall (fun kc => 1 <= snd kc) after) /\
             (NoDup (map fst counts) -> NoDup (map fst after))) as Hfold.
  { induction texts as [|text texts IH]; intros counts; cbv zeta; cbn [fold_left List.length].
    - repeat split; try lia; auto.
    - destruct (IH (fold_left (fun counts t => dict_incr t counts)
                              (matched_topics (clean_text text)) counts))
        as (Ht & Hp & Hn). cbv zeta in Ht, Hp, Hn.
      rewrite total_fold_incr in Ht.
      pose proof (matched_topics_length (clean_text text)) as Hl.
      repeat split; try lia.
      + intros H. now apply Hp, fold_incr_positive.
      + intros H. now apply Hn, fold_incr_NoDup. }
  destruct (Hfold []) as (Ht & Hp & Hn). cbv zeta in Ht, Hp, Hn.
  change (total []) with 0 in Ht.
  specialize (Hp (Forall_nil _)). specialize (Hn (NoDup_nil _)).
  repeat split; try lia; try assumption.
  - apply Forall_forall. intros [k c] Hin. cbn [snd].
    rewrite Forall_forall in Hp. split; [exact (Hp _ Hin)|].
    rewrite <- (count_of_item k c _ Hn Hin), analyze_count.
    cbn [count_of assoc]. rewrite Z.add_0_l. apply inj_le, filter_length_le.
  - intros Hne. pose proof (total_positive _ Hp Hne). lia.
Qed.

Lemma occurrences_filter (w : string) (p : string -> bool) (words : list string) :
  p w = true -> occurrences w (filter p words) = occurrences w words.
Proof.
  intros Hp. unfold occurrences. do 2 f_equal.
  induction words as [|x words IH]; [reflexivity|].
  cbn [filter]. destruct (String.eqb_spec w x) as [<-|Hne].
  - rewrite Hp. cbn [filter]. rewrite String.eqb_refl. now f_equal.
  - destruct (p x); [cbn [filter]; destruct (String.eqb_spec w x); [contradiction|]|]; exact IH.
Qed.

Lemma occurrences_positive (w : string) (words : list string) :
  In w words -> 1 <= occurrences w words.
Proof.
  intros Hin. unfold occurrences.
  assert (In w (filter (String.eqb w) words)) as H
    by (apply filter_In; split; [assumption | apply String.eqb_refl]).
  destruct (filter (String.eqb w) words); [destruct H | cbn [List.length]; lia].
Qed.

Lemma In_firstn {A : Type} (n : nat) (l : list A) (x : A) : In x (firstn n l) -> In x l.
Proof. intros H. rewrite <- (firstn_skipn n l). apply in_or_app. now left. Qed.

Lemma most_common_In (n : Z) (counts : list (string * Z)) (x : string * Z) :
  In x (most_common n counts) -> In x counts.
Proof.
  unfold most_common. intros H. apply In_firstn in H.
  apply (Permutation_in _ (sorted_desc_perm counts) H).
Qed.

(** X17. Every keyword [extract_keywords] returns has more than one
    character, is no stop word, and comes with the number of times
    [jieba.cut] produced it for the cleaned texts joined by spaces, which
    is at least 1. *)
Theorem keywords_filtered (texts stop_words : list string) (top_n : Z)
        (w : string) (c : Z) :
  In (w, c) (extract_keywords texts stop_words top_n) ->
  (1 < char_count w)%nat /\
  ~ In w stop_words /\
  c = occurrences w (jieba_cut (String.concat " " (map clean_text texts))) /\
  1 <= c.
Proof.
  unfold extract_keywords. intros H. apply most_common_In, Counter_items in H as [Hin ->].
  pose proof (occurrences_positive _ _ Hin) as Hpos.
  unfold keyword_candidates in *. apply filter_In in Hin as [Hcut Hp].
  rewrite (occurrences_filter _ _ _ Hp) in *.
  apply andb_true_iff in Hp as [Hlen Hstop].
  repeat split; try assumption.
  - now apply Nat.ltb_lt.
  - intros Hs. apply str_mem_In in Hs. rewrite Hs in Hstop. discriminate.
Qed.

Lemma descending_prefix (l1 l2 : list (string * Z)) : descending (l1 ++ l2) -> descending l1.
Proof.
  unfold descending. induction l1 as [|x l1 IH]; [constructor|].
  cbn [app]. intros H. inversion H as [|? ? Hs Hf]; subst.
  constructor; [now apply IH|].
  apply Forall_app in Hf. tauto.
Qed.

Lemma Counter_NoDup (words : list string) : NoDup (map fst (Counter words)).
Proof. apply fold_incr_NoDup. constructor. Qed.

Lemma filter_absent (keys l : list string) (w : string) :
  filter (fun k => negb (str_mem k (keys ++ [w]))) l =
  filter (fun k => negb (str_mem k keys)) (filter (fun k => negb (String.eqb w k)) l).
Proof.
  induction l as [|x l IH]; [reflexivity|].
  cbn [filter]. unfold str_mem at 1. rewrite existsb_app. cbn [existsb].
  rewrite orb_false_r, (String.eqb_sym x w). fold (str_mem x keys).
  destruct (String.eqb w x); cbn [negb filter].
  - rewrite orb_true_r. exact IH.
  - rewrite orb_false_r. destruct (str_mem x keys); cbn [negb]; now rewrite IH.
Qed.

Lemma filter_present (keys l : list string) (w : string) :
  str_mem w keys = true ->
  filter (fun k => negb (str_mem k keys)) (filter (fun k => negb (String.eqb w k)) l) =
  filter (fun k => negb (str_mem k keys)) l.
Proof.
  intros Hw. induction l as [|x l IH]; [reflexivity|].
  cbn [filter]. destruct (String.eqb_spec w x) as [<-|Hne]; cbn [negb filter].
  - rewrite Hw. exact IH.
  - now rewrite IH.
Qed.

Lemma fold_incr_order (words : list string) :
  forall counts,
    map fst (fold_left (fun counts w => dict_incr w counts) words counts) =
    map fst counts ++
    filter (fun k => negb (str_mem k (map fst counts))) (first_occurrences words).
Proof.
  induction words as [|w words IH]; intros counts; cbn [fold_left first_occurrences filter].
  - now rewrite app_nil_r.
  - rewrite IH, keys_incr.
    destruct (str_mem w (map fst counts)) eqn:E; cbn [negb].
    + rewrite app_nil_r. f_equal. symmetry. now apply filter_present.
    + rewrite <- app_assoc. cbn [app]. do 2 f_equal. apply filter_absent.
Qed.

(** The keys of a [Counter] are the words in the order of their first
    occurrence. *)
Lemma Counter_order (words : list string) :
  map fst (Counter words) = first_occurrences words.
Proof.
  unfold Counter. rewrite fold_incr_order. cbn [map app].
  induction (first_occurrences words) as [|x l IH]; [reflexivity|].
  cbn [filter str_mem existsb negb]. now f_equal.
Qed.

(** X18. [extract_keywords] returns at most top_n pairs, of distinct
    words, by decreasing count; a candidate word that is left out has a
    count no greater than any that is returned, the result then being
    full; and the returned words of one count are the first such words
    in the order in which the candidates first occur. *)
Theorem keywords_ranked (texts stop_words : list string) (top_n : Z) :
  let candidates := keyword_candidates texts stop_words in
  let result := extract_keywords texts stop_words top_n in
  (List.length result <= Z.to_nat top_n)%nat /\
  NoDup (map fst result) /\
  descending result /\
  (forall w,
      In w candidates ->
      In (w, occurrences w candidates) result \/
      (List.length result = Z.to_nat top_n /\
       forall w' c', In (w', c') result -> occurrences w candidates <= c')) /\
  (forall c,
      initial_segment
        (map fst (filter (fun item => snd item =? c) result))
        (filter (fun w => occurrences w candidates =? c) (first_occurrences candidates))).
Proof.
  cbv zeta. unfold extract_keywords, most_common.
  set (candidates := keyword_candidates texts stop_words).
  set (sorted := sorted_desc (Counter candidates)).
  pose proof (firstn_skipn (Z.to_nat top_n) sorted) as Hsplit.
  assert (descending (firstn (Z.to_nat top_n) sorted ++ skipn (Z.to_nat top_n) sorted))
    as Hdesc by (rewrite Hsplit; apply sorted_desc_descending).
  assert (NoDup (map fst sorted)) as Hnd.
  { apply (Permutation_NoDup (l := map fst (Counter candidates))).
    - apply Permutation_map. symmetry. apply sorted_desc_perm.
    - apply Counter_NoDup. }
  split; [apply firstn_le_length|]. split; [|split; [|split]].
  - rewrite <- Hsplit, map_app in Hnd. now apply NoDup_app_remove_r in Hnd.
  - now apply descending_prefix in Hdesc.
  - intros w Hw.
    assert (In (w, occurrences w candidates) sorted) as Hin.
    { apply (Permutation_in _ (Permutation_sym (sorted_desc_perm _))).
      now apply Counter_items. }
    rewrite <- Hsplit in Hin. apply in_app_or in Hin as [Hin | Hin]; [now left | right].
    split.
    + destruct (Nat.le_gt_cases (Z.to_nat top_n) (List.length sorted)) as [Hle|Hgt].
      * now apply firstn_length_le.
      * rewrite skipn_all2 in Hin by lia. destruct Hin.
    + intros w' c' Hin'.
      apply (descending_app _ _ (w', c') (w, occurrences w candidates) Hdesc Hin' Hin).
  - intros c.
    assert (filter (fun w => occurrences w candidates =? c) (first_occurrences candidates) =
            map fst (filter (fun item => snd item =? c) sorted)) as ->.
    { unfold sorted. rewrite sorted_desc_stable, <- Counter_order.
      assert (forall items,
                 (forall w n, In (w, n) items -> n = occurrences w candidates) ->
                 filter (fun w => occurrences w candidates =? c) (map fst items) =
                 map fst (filter (fun item => snd item =? c) items)) as Hmap.
      { induction items as [|[w n] items IH]; intros Hitems; [reflexivity|].
        cbn [map fst filter snd].
        rewrite <- (Hitems w n (or_introl eq_refl)).
        rewrite IH by (intros w' n' H'; apply Hitems; now right).
        destruct (n =? c); reflexivity. }
      apply Hmap. intros w n Hin. now apply Counter_items in Hin. }
    rewrite <- Hsplit at 2. rewrite filter_app, map_app.
    now eexists.
Qed.

(** X19. With the stop words [load_stopwords] gives for a file that can be
    read, no keyword is one of the fourteen built-in stop words or a
    stripped line of the file.  When the file cannot be read the set is
    empty, the built-in words included, and keywords are filtered by
    length only. *)
Theorem stopwords_applied (path : string) (texts : list string) (top_n : Z) :
  (forall lines w c,
      read_lines path = Some lines ->
      In (w, c) (extract_keywords texts (load_stopwords path) top_n) ->
      ~ In w extra_stops /\ ~ In w (map py_strip lines)) /\
  (read_lines path = None ->
   load_stopwords path = [] /\
   extract_keywords texts (load_stopwords path) top_n =
   most_common top_n
     (Counter (filter (fun word => (1 <? char_count word)%nat)
                      (jieba_cut (String.concat " " (map clean_text texts)))))).
Proof.
  split.
  - intros lines w c Hr Hin. unfold load_stopwords in Hin. rewrite Hr in Hin.
    unfold extract_keywords in Hin. apply most_common_In, Counter_items in Hin as [Hin _].
    unfold keyword_candidates in Hin. apply filter_In in Hin as [_ Hp].
    apply andb_true_iff in Hp as [_ Hstop].
    assert (~ In w (map py_strip lines ++ extra_stops)) as Hn.
    { intros Hs. apply str_mem_In in Hs. rewrite Hs in Hstop. discriminate. }
    split; intros H; apply Hn, in_or_app; tauto.
  - intros Hr. unfold load_stopwords. rewrite Hr. split; [reflexivity|].
    unfold extract_keywords, keyword_candidates. do 2 f_equal.
    apply filter_ext. intros word. cbn [str_mem existsb negb]. apply andb_true_r.
Qed.

End AnalyzerFacts.

(** ** Saving and the callers of the crawler *)

Section CallerFacts.

Context {lib : Library} {world : World} {desktop : Desktop}.

Lemma get_weibo_data_returns (keyword : string) (page_num : Z) :
  exists rows, get_weibo_data keyword page_num = Return rows.
Proof.
  unfold get_weibo_data, crawl.
  destruct (run_pages_returns (containerid_of keyword) (py_range 1 (page_num + 1)) initial)
    as (s & _ & _ & -> & _).
  cbn [bind]. eauto.
Qed.

Lemma get_weibo_data_all_raise (keyword : string) (page_num : Z) :
  (forall page, 1 <= page <= page_num ->
                exists e, page_cards (containerid_of keyword) page = Raise e) ->
  get_weibo_data keyword page_num = Return [].
Proof.
  intros H. unfold get_weibo_data, crawl.
  rewrite run_pages_all_raise; [reflexivity|].
  intros page Hin. apply H. apply py_range_bounds in Hin. lia.
Qed.

Lemma write_file_other (name content other : string) (files : filesystem) :
  other <> name -> write_file name content files other = files other.
Proof.
  intros H. unfold write_file. destruct (String.eqb_spec other name); [contradiction|reflexivity].
Qed.

(** X20. Both callers write the data file exactly when the crawl returned
    a row, with the text of the table and before the statistics are
    printed, and touch no other file.  [crawl_data] hands back the name
    of the data file also when the table was empty and nothing was
    written; when the statistics raise, the file is written and the
    exception leaves [crawl_data]. *)
Theorem callers_write_data_file (answer : string) (page_num : Z) (files : filesystem) :
  py_int (if String.eqb answer "" then "50" else answer) = Some page_num ->
  exists rows rows50,
    get_weibo_data search_keyword page_num = Return rows /\
    get_weibo_data search_keyword 50 = Return rows50 /\
    (rows = [] -> crawl_data answer files = (files, Returns data_file)) /\
    (rows <> [] ->
     crawl_data answer files =
     (write_file data_file (to_csv rows) files,
      match print_statistics rows with
      | Returns _ => Returns data_file
      | Raises => Raises
      end)) /\
    (rows50 = [] -> crawler_main files = (files, Returns tt)) /\
    (rows50 <> [] ->
     crawler_main files =
     (write_file data_file (to_csv rows50) files, print_statistics rows50)) /\
    (forall name,
        name <> data_file ->
        fst (crawl_data answer files) name = files name /\
        fst (crawler_main files) name = files name).
Proof.
  intros Hint.
  destruct (get_weibo_data_returns search_keyword page_num) as [rows Hrows].
  destruct (get_weibo_data_returns search_keyword 50) as [rows50 Hrows50].
  exists rows, rows50. unfold crawl_data, crawler_main, save_to_csv.
  rewrite Hint, Hrows, Hrows50.
  repeat split; try (intros ->; reflexivity).
  - intros Hne. destruct rows; [now destruct Hne|].
    cbn [is_nil negb]. destruct (print_statistics _); reflexivity.
  - intros Hne. destruct rows50; [now destruct Hne | reflexivity].
  - destruct rows; cbn [is_nil negb fst]; [reflexivity|].
    destruct (print_statistics _); cbn [fst]; now apply write_file_other.
  - destruct rows50; cbn [is_nil negb fst]; [reflexivity | now apply write_file_other].
Qed.

(** X21. When every page request of the crawl raises, the full flow
    analyses the data file as it was before the flow: nothing is written
    by the crawl, [crawl_data] still returns the name of the data file,
    and [analyze_data] reads what an earlier run left there, or finds
    nothing and returns. *)
Theorem failed_crawl_analyses_old_file (answer : string) (page_num : Z) (files : filesystem) :
  py_int (if String.eqb answer "" then "50" else answer) = Some page_num ->
  (forall page, 1 <= page <= page_num ->
                exists e, page_cards (containerid_of search_keyword) page = Raise e) ->
  crawl_data answer files = (files, Returns data_file) /\
  full_flow answer files = analyze_data data_file files /\
  (files data_file = None -> full_flow answer files = (files, Returns tt)) /\
  (forall old stopwords,
      files data_file = Some old ->
      files "stopwords.txt" = Some stopwords ->
      full_flow answer files =
      match visualization old stopwords with
      | (Some page, r) => (write_file "weibo_analysis.html" page files, r)
      | (None, r) => (files, r)
      end).
Proof.
  intros Hint Hfail.
  assert (crawl_data answer files = (files, Returns data_file)) as Hc.
  { unfold crawl_data, save_to_csv.
    now rewrite Hint, (get_weibo_data_all_raise _ _ Hfail). }
  assert (full_flow answer files = analyze_data data_file files) as Hf
    by (unfold full_flow; now rewrite Hc).
  repeat split; try assumption.
  - intros Hn. rewrite Hf. unfold analyze_data. now rewrite Hn.
  - intros old stopwords Ho Hs. rewrite Hf. unfold analyze_data. now rewrite Ho, Hs.
Qed.

End CallerFacts.

(** ** The properties on sample inputs *)

#[local] Existing Instance Sample.lib.

Import Sample.

Lemma consecutive_empty_stop_witness :
  crawl (world := Sample.world) "kw" 50 =
  Return (mkState [post "a"; post "b"] 3 [1; 2; 3; 4]).
Proof.
  unfold crawl.
  change (py_range 1 (50 + 1)) with (1 :: 2 :: 3 :: 4 :: py_range 5 51).
  apply (proj2 (proj2 (proj2 (proj2
           (consecutive_empty_stop (world := Sample.world) (containerid_of "kw")))))
           1 2 3 4 (py_range 5 51) initial
           [direct (mblog_of "a"); banner; direct (mblog_of "b")]
           [direct (mblog_of "b"); composite [banner; direct (mblog_of "a")]]
           [direct (mblog_of "b"); composite [banner; direct (mblog_of "a")]]
           [direct (mblog_of "b"); composite [banner; direct (mblog_of "a")]]
           [post "a"; post "b"] 2).
  - reflexivity.
  - reflexivity.
  - lia.
  - reflexivity.
  - reflexivity.
  - reflexivity.
  - repeat constructor.
  - repeat constructor.
  - repeat constructor.
Defined.

Lemma bid_deduplication_witness :
  process_cards (world := Sample.world) 2 0
                [direct (mblog_of "b"); direct (mblog_of "c")] [post "a"; post "b"] 0 =
  ([post "a"; post "b"; post "c"], Return 1) /\
  exists s,
    crawl (world := Sample.world) "kw" 50 = Return s /\
    get_weibo_data (world := Sample.world) "kw" 50 = Return (all_data s) /\
    distinct_bids (all_data s).
Proof.
  destruct (bid_deduplication (world := Sample.world) "kw" 50) as (Hcard & _ & s & Hc & Hg & Hs).
  split.
  - rewrite (Hcard 2 0%nat (direct (mblog_of "b")) [direct (mblog_of "c")]
                   [post "a"; post "b"] 0 (post "b") eq_refl eq_refl).
    reflexivity.
  - exists s. cbv zeta in Hs. destruct Hs as (_ & Hd & _). auto.
Defined.

Lemma provider_failure_stops_witness :
  (http (World := Sample.world_rejecting) (containerid_of "kw") 2 =
   Body (JObj [("ok", JInt 0); ("msg", JStr "busy")]) /\
   not_ok [("ok", JInt 0); ("msg", JStr "busy")] /\
   1 <= 2 <= 50) /\
  get_weibo_data (world := Sample.world_rejecting) "kw" 50 =
  get_weibo_data (world := Sample.world_rejecting) "kw" (2 - 1) /\
  get_weibo_data (world := Sample.world_rejecting) "kw" (2 - 1) = Return [post "a"; post "b"].
Proof.
  assert (not_ok [("ok", JInt 0); ("msg", JStr "busy")]) as Hn by (left; reflexivity).
  split; [split; [reflexivity | split; [exact Hn | lia]]|].
  split; [|reflexivity].
  apply (proj2 (provider_failure_stops (world := Sample.world_rejecting) "kw" 2
                  [("ok", JInt 0); ("msg", JStr "busy")] eq_refl Hn) 50).
  lia.
Defined.

Lemma transient_errors_skipped_witness :
  crawl (world := Sample.world_down) "kw" 3 = Return (mkState [] 0 [1; 2; 3]) /\
  get_weibo_data (world := Sample.world_down) "kw" 3 = Return [].
Proof.
  destruct (transient_errors_skipped (world := Sample.world_down))
    as (Hfail & _ & _ & _ & _ & _ & Hall).
  apply (Hall "kw" 3).
  intros page _. exists RequestException. apply Hfail. reflexivity.
Defined.

Lemma repost_text_composition_witness :
  parse_mblog now repost_AB =
  Return (Some (Post.mk "" (JStr "") "" "A // B" 1 (JInt 0) (JInt 0) (JInt 0)
                        (JStr "") (JInt 0) (JStr ""))) /\
  Post.text (Post.mk "" (JStr "") "" "A // B" 1 (JInt 0) (JInt 0) (JInt 0)
                     (JStr "") (JInt 0) (JStr "")) = "A // B".
Proof.
  assert (parse_mblog now repost_AB =
          Return (Some (Post.mk "" (JStr "") "" "A // B" 1 (JInt 0) (JInt 0) (JInt 0)
                                (JStr "") (JInt 0) (JStr "")))) as Hp by reflexivity.
  split; [exact Hp|].
  destruct (repost_text_composition
              now [("text", JStr "A"); ("retweeted_status", JObj [("text", JStr "B")])]
              (JObj [("text", JStr "B")]) _ eq_refl Hp) as (rd & Hrd & _ & _ & _ & HAB).
  injection Hrd as <-. apply HAB; reflexivity.
Defined.

(** C5, as stated, at a comment of two lines: the text of the record is
    not the comment and the original joined by " // ", since the newline
    of the comment has become a space. *)
Lemma repost_text_newline_counterexample :
  ~ (forall r,
        parse_mblog now repost_two_lines = Return (Some r) ->
        Post.is_retweet r = 1 /\
        Post.text r = (two_lines ++ " // " ++ "C")%string).
Proof.
  intros H.
  assert (parse_mblog now repost_two_lines =
          Return (Some (Post.mk "" (JStr "") "" "A B // C" 1 (JInt 0) (JInt 0) (JInt 0)
                                (JStr "") (JInt 0) (JStr "")))) as Hp by reflexivity.
  destruct (H _ Hp) as [_ Ht].
  discriminate Ht.
Qed.

Lemma created_at_normalization_witness :
  (lookup (items_at "5分钟前") "created_at" (JStr "") = JStr "5分钟前" /\
   parse_mblog now (mblog_at "5分钟前") = Return (Some (post_at now)) /\
   parse_mblog now (mblog_at "2023-01-01 10:00:00") =
   Return (Some (post_at "2023-01-01 10:00:00")) /\
   parse_mblog now (mblog_at "yesterday") = Return (Some (post_at "yesterday")) /\
   agree_except "created_at" (items_at "5分钟前") (items_at "yesterday")) /\
  Post.created_at (post_at now) = now /\
  Post.created_at (post_at "2023-01-01 10:00:00") = "2023-01-01 10:00:00" /\
  Post.created_at (post_at "yesterday") = "yesterday" /\
  (parse_mblog now (mblog_at "5分钟前") = Return None <->
   parse_mblog "" (mblog_at "yesterday") = Return None).
Proof.
  assert (parse_mblog now (mblog_at "5分钟前") = Return (Some (post_at now)))
    as H1 by reflexivity.
  assert (parse_mblog now (mblog_at "2023-01-01 10:00:00") =
          Return (Some (post_at "2023-01-01 10:00:00"))) as H2 by reflexivity.
  assert (parse_mblog now (mblog_at "yesterday") = Return (Some (post_at "yesterday")))
    as H3 by reflexivity.
  assert (agree_except "created_at" (items_at "5分钟前") (items_at "yesterday")) as Ha.
  { intros k Hk. cbn [items_at assoc].
    destruct (String.eqb k "bid"); [reflexivity|].
    destruct (String.eqb_spec k "created_at"); [contradiction | reflexivity]. }
  destruct created_at_normalization as [Hnorm Hindep].
  split; [repeat split; assumption|].
  split; [|split; [|split]].
  - exact (Hnorm now (items_at "5分钟前") "5分钟前" _ eq_refl H1).
  - exact (Hnorm now (items_at "2023-01-01 10:00:00") "2023-01-01 10:00:00" _ eq_refl H2).
  - exact (Hnorm now (items_at "yesterday") "yesterday" _ eq_refl H3).
  - exact (Hindep now "" _ _ Ha).
Defined.

Lemma composite_card_as_direct_witness :
  parse_weibo now (composite [banner; direct (mblog_of "a"); direct (mblog_of "b")]) =
  parse_weibo now (direct (mblog_of "a")) /\
  parse_weibo now (composite [banner; direct (JObj [])]) = Return None.
Proof.
  split.
  - apply (proj1 (composite_card_as_direct
                    now (composite_items [banner; direct (mblog_of "a"); direct (mblog_of "b")])
                    eq_refl)
             [banner] (direct (mblog_of "a")) [direct (mblog_of "b")] (mblog_of "a")
             (direct (mblog_of "a"))).
    + reflexivity.
    + repeat constructor.
    + reflexivity.
    + reflexivity.
  - apply (proj2 (composite_card_as_direct
                    now (composite_items [banner; direct (JObj [])]) eq_refl)
             [banner; direct (JObj [])]).
    + reflexivity.
    + repeat constructor.
Defined.

Lemma parse_weibo_total_witness :
  parse_weibo now banner = Return None /\
  parse_weibo now JNull = Return None /\
  parse_weibo now (direct (JObj [])) = Return None /\
  parse_weibo now (composite [JNull; direct (mblog_of "a")]) = Return None /\
  parse_mblog now (JObj [("user", JNull)]) = Return None.
Proof.
  destruct (parse_weibo_total (world := Sample.world))
    as (_ & Hother & Hempty & Hcard & Hmblog & _).
  split; [|split; [|split; [|split]]].
  - apply Hother. intros ty H. injection H as <-. split; reflexivity.
  - apply Hother. intros ty H. discriminate H.
  - apply (Hempty now _ (JInt 9) (JObj [])); reflexivity.
  - apply (Hcard now _ AttributeError). reflexivity.
  - apply (Hmblog now _ AttributeError). reflexivity.
Defined.

Lemma counts_raw_or_zero_witness :
  parse_mblog now mblog_hot =
  Return (Some (Post.mk "" (JStr "h") "" "" 0 (JStr "100万+") (JInt (-1)) (JInt 0)
                        (JStr "") (JInt 0) (JStr ""))) /\
  Post.attitudes_count
    (Post.mk "" (JStr "h") "" "" 0 (JStr "100万+") (JInt (-1)) (JInt 0)
             (JStr "") (JInt 0) (JStr "")) = JInt 0.
Proof.
  assert (parse_mblog now mblog_hot =
          Return (Some (Post.mk "" (JStr "h") "" "" 0 (JStr "100万+") (JInt (-1)) (JInt 0)
                                (JStr "") (JInt 0) (JStr "")))) as Hp by reflexivity.
  split; [exact Hp|].
  destruct (counts_raw_or_zero now mblog_hot _ Hp)
    as (d & user & Hd & _ & _ & _ & _ & _ & _ & _ & Ha & _).
  injection Hd as <-. apply Ha. reflexivity.
Defined.

(** C9, as stated, at an mblog whose reposts_count is the string "100万+"
    and whose comments_count is -1: the record carries both as they are. *)
Lemma counts_not_validated_counterexample :
  ~ (forall r,
        parse_mblog now mblog_hot = Return (Some r) ->
        nonneg_int (Post.reposts_count r) /\
        nonneg_int (Post.comments_count r) /\
        nonneg_int (Post.attitudes_count r) /\
        nonneg_int (Post.user_followers r)).
Proof.
  intros H.
  assert (parse_mblog now mblog_hot =
          Return (Some (Post.mk "" (JStr "h") "" "" 0 (JStr "100万+") (JInt (-1)) (JInt 0)
                                (JStr "") (JInt 0) (JStr "")))) as Hp by reflexivity.
  destruct (H _ Hp) as ((n & Hn & _) & _).
  discriminate Hn.
Qed.

Lemma clock_only_for_minutes_and_hours_witness :
  (lookup (items_at "3小时前") "created_at" (JStr "") = JStr "3小时前" /\
   parse_mblog now (mblog_at "3小时前") = Return (Some (post_at now)) /\
   str_contains "小时前" "3小时前" = true /\
   parse_mblog now (mblog_at "刚刚") = Return (Some (post_at "刚刚")) /\
   str_contains "分钟前" "3天前" = false /\
   str_contains "小时前" "3天前" = false /\
   parse_mblog now (mblog_at "3天前") = Return (Some (post_at "3天前"))) /\
  Post.created_at (post_at now) = now /\
  Post.created_at (post_at "刚刚") = "刚刚" /\
  Post.created_at (post_at "3天前") = "3天前".
Proof.
  assert (parse_mblog now (mblog_at "3小时前") = Return (Some (post_at now)))
    as H1 by reflexivity.
  assert (parse_mblog now (mblog_at "刚刚") = Return (Some (post_at "刚刚")))
    as H2 by reflexivity.
  assert (parse_mblog now (mblog_at "3天前") = Return (Some (post_at "3天前")))
    as H3 by reflexivity.
  split; [repeat split; (reflexivity || assumption)|].
  split; [|split].
  - apply (proj1 (clock_only_for_minutes_and_hours
                    now (items_at "3小时前") "3小时前" _ eq_refl H1)).
    right. reflexivity.
  - apply (proj2 (proj2 (clock_only_for_minutes_and_hours
                           now (items_at "刚刚") "刚刚" _ eq_refl H2))).
    left. reflexivity.
  - apply (proj1 (proj2 (clock_only_for_minutes_and_hours
                           now (items_at "3天前") "3天前" _ eq_refl H3))).
    split; reflexivity.
Defined.

(** ** The further properties on sample inputs *)

Import SampleMore.

Lemma parse_mblog_accepts_witness :
  (mblog_accepted repost_AB = true /\
   mblog_accepted (JObj [("text", JNull)]) = false) /\
  (exists r, parse_mblog now repost_AB = Return (Some r)) /\
  parse_mblog now (JObj [("text", JNull)]) = Return None.
Proof.
  split; [split; reflexivity|]. split.
  - apply (proj1 (parse_mblog_accepts now repost_AB)). reflexivity.
  - apply (proj2 (parse_mblog_accepts now (JObj [("text", JNull)]))). reflexivity.
Defined.

Lemma record_text_single_line_witness :
  parse_mblog now repost_two_lines = Return (Some (post_text "A B // C" 1)) /\
  str_contains (String newline EmptyString) (Post.text (post_text "A B // C" 1)) = false.
Proof.
  assert (parse_mblog now repost_two_lines = Return (Some (post_text "A B // C" 1)))
    as Hp by reflexivity.
  split; [exact Hp|].
  exact (record_text_single_line now repost_two_lines _ Hp).
Defined.

Lemma is_retweet_flag_witness :
  parse_mblog now (JObj [("text", JStr two_lines)]) = Return (Some (post_text "A B" 0)) /\
  ((assoc "retweeted_status" [("text", JStr two_lines)] <> None /\
    Post.is_retweet (post_text "A B" 0) = 1) \/
   (assoc "retweeted_status" [("text", JStr two_lines)] = None /\
    Post.is_retweet (post_text "A B" 0) = 0 /\
    exists s, lookup [("text", JStr two_lines)] "text" (JStr "") = JStr s /\
              Post.text (post_text "A B" 0) = str_replace newline " " s)).
Proof.
  assert (parse_mblog now (JObj [("text", JStr two_lines)]) = Return (Some (post_text "A B" 0)))
    as Hp by reflexivity.
  split; [exact Hp|].
  exact (is_retweet_flag now [("text", JStr two_lines)] _ Hp).
Defined.

Lemma parse_weibo_provenance_witness :
  parse_weibo now (composite [banner; direct (mblog_of "a"); direct (mblog_of "b")]) =
  Return (Some (post "a")) /\
  exists d mblog,
    composite [banner; direct (mblog_of "a"); direct (mblog_of "b")] = JObj d /\
    parse_mblog now mblog = Return (Some (post "a")) /\
    ((lookup d "card_type" JNull = JInt 9 /\
      direct_mblog (composite [banner; direct (mblog_of "a"); direct (mblog_of "b")]) =
      Some mblog) \/
     (lookup d "card_type" JNull = JInt 11 /\
      exists pre sub post,
        lookup d "card_group" (JArr []) = JArr (pre ++ sub :: post) /\
        Forall passed_over pre /\
        direct_mblog sub = Some mblog)).
Proof.
  assert (parse_weibo now (composite [banner; direct (mblog_of "a"); direct (mblog_of "b")]) =
          Return (Some (post "a"))) as Hp by reflexivity.
  split; [exact Hp|].
  exact (parse_weibo_provenance now _ _ Hp).
Defined.

Lemma parse_weibo_clock_witness :
  parse_weibo now (direct (mblog_at "3小时前")) = Return (Some (post_at now)) /\
  same_but_created_at (parse_weibo now (direct (mblog_at "3小时前")))
                      (parse_weibo "2030-01-01 00:00:00" (direct (mblog_at "3小时前"))) /\
  exists r', parse_weibo "2030-01-01 00:00:00" (direct (mblog_at "3小时前")) =
             Return (Some r') /\
             Post.bid r' = Post.bid (post_at now).
Proof.
  assert (parse_weibo now (direct (mblog_at "3小时前")) = Return (Some (post_at now)))
    as Hp by reflexivity.
  split; [exact Hp|].
  destruct (parse_weibo_clock now "2030-01-01 00:00:00" (direct (mblog_at "3小时前")))
    as [Hsame Hbid].
  split; [exact Hsame | exact (Hbid _ Hp)].
Defined.

Lemma process_cards_twice_witness :
  fst (process_cards (world := Sample.world) 1 0
         [direct (mblog_of "a"); banner; direct (mblog_of "a")] [post "b"] 0) =
  [post "b"; post "a"] /\
  process_cards (world := Sample.world) 2 0
    [direct (mblog_of "a"); banner; direct (mblog_of "a")]
    (fst (process_cards (world := Sample.world) 1 0
            [direct (mblog_of "a"); banner; direct (mblog_of "a")] [post "b"] 0)) 0 =
  (fst (process_cards (world := Sample.world) 1 0
          [direct (mblog_of "a"); banner; direct (mblog_of "a")] [post "b"] 0),
   Return 0).
Proof.
  split; [reflexivity|].
  apply (process_cards_twice (world := Sample.world) 1 2
           [direct (mblog_of "a"); banner; direct (mblog_of "a")] [post "b"]).
  - repeat constructor.
  - repeat constructor.
Defined.

Lemma missing_bid_collides_witness :
  (parse_mblog now (JObj [("text", JStr "one")]) = Return (Some (post_text "one" 0)) /\
   parse_mblog now (JObj [("text", JStr "two")]) = Return (Some (post_text "two" 0))) /\
  Post.bid (post_text "one" 0) = JStr "" /\
  Post.bid (post_text "two" 0) = JStr "" /\
  seen [post "a"; post_text "one" 0] (post_text "two" 0) = true.
Proof.
  assert (parse_mblog now (JObj [("text", JStr "one")]) = Return (Some (post_text "one" 0)))
    as H1 by reflexivity.
  assert (parse_mblog now (JObj [("text", JStr "two")]) = Return (Some (post_text "two" 0)))
    as H2 by reflexivity.
  split; [split; assumption|].
  apply (missing_bid_collides now now [("text", JStr "one")] [("text", JStr "two")]
           _ _ [post "a"; post_text "one" 0] eq_refl eq_refl H1 H2).
  right. now left.
Defined.

Lemma requested_pages_initial_segment_witness :
  exists s k,
    crawl (world := Sample.world) "kw" 0 = Return s /\
    0 <= k <= Z.max 0 0 /\
    requested s = py_range 1 (k + 1) /\
    s = initial.
Proof.
  destruct (requested_pages_initial_segment (world := Sample.world) "kw" 0)
    as (s & k & Hc & Hk & Hr & Hz).
  exists s, k. repeat split; try assumption; try lia. apply Hz. lia.
Defined.

Lemma more_pages_only_append_witness :
  1 <= 50 /\
  exists rows rows',
    get_weibo_data (world := world_flaky) "kw" 1 = Return rows /\
    get_weibo_data (world := world_flaky) "kw" 50 = Return rows' /\
    initial_segment rows rows'.
Proof.
  split; [lia|].
  apply (more_pages_only_append (world := world_flaky) "kw" 1 50). lia.
Defined.

Lemma rows_come_from_cards_witness :
  exists page cards i card,
    In page [1; 2; 3; 4] /\
    page_cards (world := Sample.world) (containerid_of "kw") page = Return (Some cards) /\
    nth_error cards i = Some card /\
    parse_weibo (clock (World := Sample.world) page i) card = Return (Some (post "b")).
Proof.
  destruct (rows_come_from_cards (world := Sample.world) "kw" 50) as (s & Hc & _ & Hrows).
  assert (crawl (world := Sample.world) "kw" 50 =
          Return (mkState [post "a"; post "b"] 3 [1; 2; 3; 4])) as Hs by reflexivity.
  rewrite Hs in Hc. injection Hc as <-.
  apply (Hrows (post "b")). right. now left.
Defined.

Lemma failed_pages_keep_counter_witness :
  run_pages (world := world_flaky) (containerid_of "kw") [2; 3; 4; 5; 6; 7; 8]
            (mkState [post "a"; post "b"] 0 [1]) =
  Return (mkState [post "a"; post "b"] 3 [1; 2; 3; 4; 5; 6]).
Proof.
  apply (failed_pages_keep_counter (world := world_flaky) (containerid_of "kw")
           2 4 6 [3] [5] [7; 8]
           [direct (mblog_of "b"); composite [banner; direct (mblog_of "a")]]
           [direct (mblog_of "b"); composite [banner; direct (mblog_of "a")]]
           [direct (mblog_of "b"); composite [banner; direct (mblog_of "a")]]
           (mkState [post "a"; post "b"] 0 [1])).
  - reflexivity.
  - reflexivity.
  - reflexivity.
  - reflexivity.
  - repeat constructor.
  - repeat constructor.
  - repeat constructor.
  - repeat constructor. exists RequestException. reflexivity.
  - repeat constructor. exists JSONDecodeError. reflexivity.
Defined.

Lemma malformed_card_skips_page_witness :
  parse_weibo now (direct (mblog_of "a")) = Return (Some (post "a")) /\
  page_cards (world := world_odd) (containerid_of "kw") 1 = Raise AttributeError /\
  parsed_page (world := world_odd) (containerid_of "kw") 1 = [] /\
  loop_body (world := world_odd) (containerid_of "kw") 1 initial =
  Return (mkState [] 0 [1], Next).
Proof.
  split; [reflexivity|].
  apply (malformed_card_skips_page (world := world_odd) (containerid_of "kw") 1 initial
           (body_of [("cards", JArr [direct (mblog_of "a"); JNull])])
           [("cards", JArr [direct (mblog_of "a"); JNull])]
           [direct (mblog_of "a"); JNull]); reflexivity.
Defined.

Lemma page_without_cards_is_empty_witness :
  loop_body (world := world_odd) (containerid_of "kw") 2 (mkState [post "a"] 2 [1]) =
  Return (mkState [post "a"] 3 [1; 2], Break).
Proof.
  apply (page_without_cards_is_empty (world := world_odd) (containerid_of "kw") 2
           (mkState [post "a"] 2 [1]) (body_of []) []); reflexivity.
Defined.

Lemma topic_counts_exact_witness :
  In ("判决相关", ["判决"; "判刑"; "量刑"; "死刑"; "一审"; "法院"; "庭审"; "刑事";
                   "起诉"; "11年"; "被告人"; "被告"; "审判"; "宣判"; "无期徒刑"])
     get_topic_keywords /\
  count_of "判决相关" (analyze_topics (text_lib := text_lib) texts) = 3 /\
  count_of other_topic (analyze_topics (text_lib := text_lib) texts) = 1.
Proof.
  assert (In ("判决相关", ["判决"; "判刑"; "量刑"; "死刑"; "一审"; "法院"; "庭审"; "刑事";
                           "起诉"; "11年"; "被告人"; "被告"; "审判"; "宣判"; "无期徒刑"])
             get_topic_keywords) as Hin by (left; reflexivity).
  destruct (topic_counts_exact (text_lib := text_lib) texts) as (Htopic & Hother & _).
  split; [exact Hin|]. split.
  - rewrite (Htopic _ _ Hin). reflexivity.
  - rewrite Hother. reflexivity.
Defined.

Lemma keywords_filtered_witness :
  In ("判决", 3)
     (extract_keywords (text_lib := text_lib) texts
                       (load_stopwords (text_lib := text_lib) "stopwords.txt") 3) /\
  (1 < char_count "判决")%nat /\
  ~ In "判决" (load_stopwords (text_lib := text_lib) "stopwords.txt") /\
  3 = occurrences "判决"
        (jieba_cut (TextLibrary := text_lib)
                   (String.concat " " (map (clean_text (text_lib := text_lib)) texts))) /\
  1 <= 3.
Proof.
  assert (In ("判决", 3)
             (extract_keywords (text_lib := text_lib) texts
                               (load_stopwords (text_lib := text_lib) "stopwords.txt") 3))
    as Hin by (left; reflexivity).
  split; [exact Hin|].
  exact (keywords_filtered (text_lib := text_lib) texts _ 3 "判决" 3 Hin).
Defined.

Lemma keywords_ranked_witness :
  In "天气" (keyword_candidates (text_lib := text_lib) texts []) /\
  List.length (extract_keywords (text_lib := text_lib) texts [] 3) = 3%nat /\
  forall w' c',
    In (w', c') (extract_keywords (text_lib := text_lib) texts [] 3) ->
    occurrences "天气" (keyword_candidates (text_lib := text_lib) texts []) <= c'.
Proof.
  assert (In "天气" (keyword_candidates (text_lib := text_lib) texts [])) as Hin
    by (apply str_mem_In; reflexivity).
  split; [exact Hin|].
  destruct (keywords_ranked (text_lib := text_lib) texts [] 3) as (_ & _ & _ & Hbest & _).
  cbv zeta in Hbest.
  destruct (Hbest "天气" Hin) as [Hres | Hfull]; [|exact Hfull].
  exfalso.
  assert (extract_keywords (text_lib := text_lib) texts [] 3 =
          [("判决", 3); ("法院", 1); ("一审", 1)]) as E by reflexivity.
  rewrite E in Hres.
  repeat (destruct Hres as [Hres|Hres]; [discriminate Hres|]). exact Hres.
Defined.

Lemma stopwords_applied_witness :
  (read_lines (TextLibrary := text_lib) "stopwords.txt" = Some ["法院"; "我们"] /\
   In ("一审", 1)
      (extract_keywords (text_lib := text_lib) texts
                        (load_stopwords (text_lib := text_lib) "stopwords.txt") 3) /\
   read_lines (TextLibrary := text_lib) "missing.txt" = None) /\
  ~ In "一审" extra_stops /\
  load_stopwords (text_lib := text_lib) "missing.txt" = [].
Proof.
  assert (In ("一审", 1)
             (extract_keywords (text_lib := text_lib) texts
                               (load_stopwords (text_lib := text_lib) "stopwords.txt") 3))
    as Hin by (right; left; reflexivity).
  split; [repeat split; (reflexivity || exact Hin)|].
  split.
  - exact (proj1 (proj1 (stopwords_applied (text_lib := text_lib) "stopwords.txt" texts 3)
                        ["法院"; "我们"] "一审" 1 eq_refl Hin)).
  - exact (proj1 (proj2 (stopwords_applied (text_lib := text_lib) "missing.txt" texts 3)
                        eq_refl)).
Defined.

Lemma callers_write_data_file_witness :
  py_int (Desktop := desktop) "3" = Some 3 /\
  exists rows rows50,
    get_weibo_data (world := Sample.world) search_keyword 3 = Return rows /\
    get_weibo_data (world := Sample.world) search_keyword 50 = Return rows50 /\
    fst (crawl_data (world := Sample.world) (desktop := desktop) "3" old_files)
        "stopwords.txt" = Some "我们".
Proof.
  split; [reflexivity|].
  destruct (callers_write_data_file (world := Sample.world) (desktop := desktop)
              "3" 3 old_files eq_refl)
    as (rows & rows50 & Hr & Hr50 & _ & _ & _ & _ & Hother).
  exists rows, rows50. split; [exact Hr|]. split; [exact Hr50|].
  assert ("stopwords.txt" <> data_file) as Hne by discriminate.
  rewrite (proj1 (Hother _ Hne)). reflexivity.
Defined.

Lemma failed_crawl_analyses_old_file_witness :
  py_int (Desktop := desktop) "50" = Some 50 /\
  crawl_data (world := Sample.world_down) (desktop := desktop) "" old_files =
  (old_files, Returns data_file) /\
  full_flow (world := Sample.world_down) (desktop := desktop) "" old_files =
  (write_file "weibo_analysis.html" "page of old rows" old_files, Returns tt).
Proof.
  split; [reflexivity|].
  assert (forall page, 1 <= page <= 50 ->
            exists e, page_cards (world := Sample.world_down)
                                 (containerid_of search_keyword) page = Raise e) as Hdown
    by (intros page _; exists RequestException; reflexivity).
  destruct (failed_crawl_analyses_old_file (world := Sample.world_down) (desktop := desktop)
              "" 50 old_files eq_refl Hdown) as (Hc & _ & _ & Hold).
  split; [exact Hc|]. exact (Hold "old rows" "我们" eq_refl eq_refl).
Defined.
